(** * Web-Scrapers: a shallow embedding of [avito_scraper.py] and
      [jumia_scraper.py], and the properties of their harvesting engine.

    Conventions of the embedding.
    - A Python [str] is a list of Unicode code points ([pystr]); [len],
      [in], [startswith], [strip], [replace] and [split] are defined on it.
    - A Python [float] delay is an exact rational ([Q]); the throttle only
      compares delays and scales them by the constants 0.9, 1.2 and 2.
    - A [set] of strings is a [gset pystr]; the file system is a finite map
      from path to content.
    - Mutable objects are threaded explicitly: every method takes the state
      it reads and returns the state it leaves.
    - [response.text] parsed by BeautifulSoup is a [soup]: the answers of
      the document to the queries the scrapers make. *)

From Stdlib Require Import QArith Qminmax Lqa.
From Stdlib Require Import ZArith NArith Lia List Ascii String DecimalString.
From stdpp Require Import base gmap sets list strings.

Import ListNotations.

(* ===================================================================== *)
(** * Python strings                                                      *)
(* ===================================================================== *)

Module Py.

Local Open Scope N_scope.

(** A [str]: its code points, in order. *)
Definition pystr : Type := list N.

(** An ASCII literal of the source. *)
Definition lit (s : string) : pystr :=
  List.map N_of_ascii (list_ascii_of_string s).

Definition LF : N := 10.
Definition CR : N := 13.
Definition DQUOTE : N := 34.

(** [str == str] *)
Fixpoint eqb (s t : pystr) : bool :=
  match s, t with
  | [], [] => true
  | c :: s', d :: t' => (c =? d) && eqb s' t'
  | _, _ => false
  end.

(** [s.startswith(p)] *)
Fixpoint startswith (s p : pystr) : bool :=
  match p, s with
  | [], _ => true
  | d :: p', c :: s' => (c =? d) && startswith s' p'
  | _ :: _, [] => false
  end.

(** [p in s] for strings: [p] occurs as a contiguous slice of [s]. *)
Fixpoint contains (s p : pystr) : bool :=
  startswith s p ||
  match s with
  | [] => false
  | _ :: s' => contains s' p
  end.

(** The characters [str.strip()] removes: the code points for which
    [str.isspace] holds. *)
Definition is_space (c : N) : bool :=
  ((9 <=? c) && (c <=? 13)) || ((28 <=? c) && (c <=? 32))
  || (c =? 133) || (c =? 160) || (c =? 5760)
  || ((8192 <=? c) && (c <=? 8202))
  || (c =? 8232) || (c =? 8233) || (c =? 8239) || (c =? 8287)
  || (c =? 12288).

Fixpoint lstrip (s : pystr) : pystr :=
  match s with
  | [] => []
  | c :: s' => if is_space c then lstrip s' else s
  end.

Definition rstrip (s : pystr) : pystr := rev (lstrip (rev s)).

(** [s.strip()] *)
Definition strip (s : pystr) : pystr := rstrip (lstrip s).

(** [s.replace(c, d)] for one-character [c] and [d]. *)
Definition replace_char (c d : N) (s : pystr) : pystr :=
  List.map (fun x => if x =? c then d else x) s.

(** [s.split(sep)] for a one-character separator: always at least one
    piece, empty pieces kept. *)
Fixpoint split_aux (sep : N) (cur : pystr) (s : pystr) : list pystr :=
  match s with
  | [] => [cur]
  | c :: s' =>
      if c =? sep then cur :: split_aux sep [] s'
      else split_aux sep (cur ++ [c]) s'
  end.

Definition split (sep : N) (s : pystr) : list pystr := split_aux sep [] s.

(** [sep.join(parts)] *)
Fixpoint join (sep : pystr) (parts : list pystr) : pystr :=
  match parts with
  | [] => []
  | [p] => p
  | p :: rest => p ++ sep ++ join sep rest
  end.

(** [str(n)] for a non-negative [int]. *)
Definition str_of_nat (n : nat) : pystr :=
  lit (NilEmpty.string_of_uint (Nat.to_uint n)).

(** What a text-mode [open(..., 'r')] hands out: universal newlines,
    every [\r\n] and every lone [\r] read as [\n]. *)
Fixpoint universal_newlines (s : pystr) : pystr :=
  match s with
  | [] => []
  | c :: rest =>
      if c =? CR then
        match rest with
        | d :: rest' =>
            if d =? LF then LF :: universal_newlines rest'
            else LF :: universal_newlines rest
        | [] => [LF]
        end
      else c :: universal_newlines rest
  end.

Fixpoint lines_aux (cur : pystr) (s : pystr) : list pystr :=
  match s with
  | [] => match cur with [] => [] | _ => [cur] end
  | c :: s' =>
      if c =? LF then (cur ++ [LF]) :: lines_aux [] s'
      else lines_aux (cur ++ [c]) s'
  end.

(** [for line in f]: the lines of a text file, each with its terminator,
    the last one without when the file does not end in one. *)
Definition file_lines (content : pystr) : list pystr :=
  lines_aux [] (universal_newlines content).

(** Truthiness of a [str]. *)
Definition truthy (s : pystr) : bool :=
  match s with [] => false | _ => true end.

End Py.

Import Py.

(* ===================================================================== *)
(** * [SmartRateLimiter]: the adaptive throttle                           *)
(* ===================================================================== *)

Module Throttle.

Local Open Scope Q_scope.

Record SmartRateLimiter : Type := mkLimiter {
  base_delay : Q;
  max_delay : Q;
  current_delay : Q;
  success_count : nat;
  error_count : nat
}.

(** [SmartRateLimiter.__init__] *)
Definition init (base_delay max_delay : Q) : SmartRateLimiter :=
  mkLimiter base_delay max_delay base_delay 0 0.

(** Python's [max(a, b)]: [b] when [b > a], otherwise [a]. *)
Definition py_max (a b : Q) : Q :=
  match a ?= b with Lt => b | _ => a end.

(** Python's [min(a, b)]: [b] when [b < a], otherwise [a]. *)
Definition py_min (a b : Q) : Q :=
  match b ?= a with Lt => b | _ => a end.

(** [record_success] *)
Definition record_success (r : SmartRateLimiter) : SmartRateLimiter :=
  let sc := S (success_count r) in
  if (15 <=? sc)%nat then
    mkLimiter (base_delay r) (max_delay r)
              (py_max (base_delay r) (current_delay r * (9 # 10)))
              0 0
  else
    mkLimiter (base_delay r) (max_delay r) (current_delay r) sc 0.

(** The status codes [record_error] is called with: [None] or an [int]. *)
Definition is_429 (status_code : option Z) : bool :=
  match status_code with
  | Some c => (c =? 429)%Z
  | None => false
  end.

(** [record_error] *)
Definition record_error (status_code : option Z) (r : SmartRateLimiter)
  : SmartRateLimiter :=
  let ec := S (error_count r) in
  if is_429 status_code then
    mkLimiter (base_delay r) (max_delay r)
              (py_min (max_delay r) (current_delay r * 2))
              0 ec
  else if (5 <=? ec)%nat then
    mkLimiter (base_delay r) (max_delay r)
              (py_min (max_delay r) (current_delay r * (12 # 10)))
              0 ec
  else
    mkLimiter (base_delay r) (max_delay r) (current_delay r) 0 ec.

(** One call made on the throttle by a worker. *)
Inductive call : Type :=
| Success
| Error (status_code : option Z).

Definition step (r : SmartRateLimiter) (c : call) : SmartRateLimiter :=
  match c with
  | Success => record_success r
  | Error sc => record_error sc r
  end.

(** A finite sequence of calls, first call first. *)
Definition run (calls : list call) (r : SmartRateLimiter) : SmartRateLimiter :=
  fold_left step calls r.

(** The delay lies between the limiter's floor and its ceiling. *)
Definition in_bounds (r : SmartRateLimiter) : Prop :=
  base_delay r <= current_delay r /\ current_delay r <= max_delay r.

End Throttle.

(* ===================================================================== *)
(** * [RotatingSessionManager]: the identity pool                         *)
(* ===================================================================== *)

Module Sessions.

(** A [requests.Session], as far as the scraper configures it: its
    default headers, in insertion order. *)
Record session : Type := mkSession {
  headers : list (pystr * pystr)
}.

Definition user_agents : list pystr := [
  lit "Mozilla/5.0 (Windows NT 10.0; Win64; x64) AppleWebKit/537.36 (KHTML, like Gecko) Chrome/120.0.0.0 Safari/537.36";
  lit "Mozilla/5.0 (Macintosh; Intel Mac OS X 10_15_7) AppleWebKit/537.36 (KHTML, like Gecko) Chrome/120.0.0.0 Safari/537.36";
  lit "Mozilla/5.0 (Windows NT 10.0; Win64; x64; rv:120.0) Gecko/20100101 Firefox/120.0";
  lit "Mozilla/5.0 (Macintosh; Intel Mac OS X 10_15_7) AppleWebKit/605.1.15 (KHTML, like Gecko) Version/17.0 Safari/605.1.15"
].

(** The session built by iteration [i] of the constructor's loop. *)
Definition make_session (i : nat) : session :=
  mkSession [
    (lit "User-Agent",
      nth (i mod length user_agents) user_agents []);
    (lit "Accept", lit "text/html,application/xhtml+xml,application/xml;q=0.9,image/avif,image/webp,image/apng,*/*;q=0.8");
    (lit "Accept-Language", lit "fr-FR,fr;q=0.9,en-US;q=0.8,en;q=0.7");
    (lit "DNT", lit "1");
    (lit "Connection", lit "keep-alive");
    (lit "Upgrade-Insecure-Requests", lit "1");
    (lit "Sec-Fetch-Dest", lit "document");
    (lit "Sec-Fetch-Mode", lit "navigate");
    (lit "Sec-Fetch-Site", lit "none");
    (lit "Sec-Fetch-User", lit "?1");
    (lit "Cache-Control", lit "max-age=0")
  ].

(** [headers[name]] *)
Fixpoint header (name : pystr) (hs : list (pystr * pystr)) : option pystr :=
  match hs with
  | [] => None
  | (k, v) :: hs' => if Py.eqb k name then Some v else header name hs'
  end.

Definition user_agent (s : session) : option pystr :=
  header (lit "User-Agent") (headers s).

Record RotatingSessionManager : Type := mkManager {
  sessions : list session;
  current_session : nat
}.

(** [RotatingSessionManager.__init__] *)
Definition init (num_sessions : nat) : RotatingSessionManager :=
  mkManager (List.map make_session (seq 0 num_sessions)) 0.

(** [get_session]: [None] is the [IndexError] of an empty pool. *)
Definition get_session (m : RotatingSessionManager)
  : option (session * RotatingSessionManager) :=
  match nth_error (sessions m) (current_session m) with
  | Some s =>
      Some (s, mkManager (sessions m)
                         (S (current_session m) mod length (sessions m)))
  | None => None
  end.

(** The sessions handed out by [k] calls in a row, first call first. *)
Fixpoint assign (k : nat) (m : RotatingSessionManager) : option (list session) :=
  match k with
  | O => Some []
  | S k' =>
      match get_session m with
      | Some (s, m') =>
          match assign k' m' with
          | Some l => Some (s :: l)
          | None => None
          end
      | None => None
      end
  end.

(** The pool after [k] calls of [get_session] in a row. *)
Fixpoint advance (k : nat) (m : RotatingSessionManager)
  : option RotatingSessionManager :=
  match k with
  | O => Some m
  | S k' =>
      match get_session m with
      | Some (_, m') => advance k' m'
      | None => None
      end
  end.

End Sessions.

(* ===================================================================== *)
(** * Parsed documents                                                    *)
(* ===================================================================== *)

Module Html.

(** A [Tag]: its text nodes in document order and its attributes. *)
Record element : Type := mkElement {
  strings : list pystr;
  attrs : list (pystr * pystr)
}.

(** [tag.text] *)
Definition text (e : element) : pystr := List.concat (strings e).

(** The text nodes [get_text(strip=True)] joins: each one stripped, the
    empty ones dropped. *)
Definition stripped_strings (e : element) : list pystr :=
  List.filter truthy (List.map strip (strings e)).

(** [tag.get_text(strip=True)] *)
Definition get_text_strip (e : element) : pystr :=
  List.concat (stripped_strings e).

(** [tag.get_text(separator=sep, strip=True)] *)
Definition get_text_sep_strip (sep : pystr) (e : element) : pystr :=
  join sep (stripped_strings e).

(** [tag.get(name)] *)
Fixpoint get (name : pystr) (kvs : list (pystr * pystr)) : option pystr :=
  match kvs with
  | [] => None
  | (k, v) :: kvs' => if Py.eqb k name then Some v else get name kvs'
  end.

(** [BeautifulSoup(response.text, "html.parser")]: what the document
    answers to a CSS selector and to a search by tag names and class. *)
Record soup : Type := mkSoup {
  select : pystr -> list element;
  find_all : list pystr -> option pystr -> list element
}.

(** [soup.select_one(selector)] *)
Definition select_one (s : soup) (selector : pystr) : option element :=
  List.head (select s selector).

(** [soup.find(name)] and [soup.find(name, class_=c)] *)
Definition find (s : soup) (name : pystr) (class_ : option pystr)
  : option element :=
  List.head (find_all s [name] class_).

(** A document in which nothing is found. *)
Definition empty_soup : soup := mkSoup (fun _ => []) (fun _ _ => []).

End Html.

(* ===================================================================== *)
(** * [OptimizedAvitoScraper]                                             *)
(* ===================================================================== *)

Module Avito.

Import Html.

(** A [requests.Response], as far as it is read: the status code and the
    parsed [response.text]. *)
Record response : Type := mkResponse {
  status_code : Z;
  body : soup
}.

(** What [session.get] does: it returns a response or raises a
    [RequestException]. *)
Inductive outcome : Type :=
| Responded (r : response)
| RequestException.

(** What a run does to the outside, in order. *)
Inductive event : Type :=
| EvWait (delay : Q)                  (* [rate_limiter.wait()]: the delay before the jitter *)
| EvGet (s : Sessions.session) (url : pystr)   (* [session.get(url, timeout=15)] *)
| EvSleep (seconds : nat)             (* [time.sleep(n)] *)
| EvSleepUniform (lo hi : nat).       (* [time.sleep(random.uniform(lo, hi))] *)

Record OptimizedAvitoScraper : Type := mkScraper {
  base_url : pystr;
  category_name : pystr;
  filename : pystr;
  link_file : pystr;
  progress_file : pystr;
  session_manager : Sessions.RotatingSessionManager;
  rate_limiter : Throttle.SmartRateLimiter;
  max_workers : nat;
  product_count : nat;
  processed_urls : gset pystr
}.

(** The scraper object together with the files it owns and the trace of
    its effects. *)
Record state : Type := mkState {
  self : OptimizedAvitoScraper;
  fs : gmap pystr pystr;
  trace : list event
}.

Definition set_session_manager (m : Sessions.RotatingSessionManager) (st : state) : state :=
  let o := self st in
  mkState (mkScraper (base_url o) (category_name o) (filename o) (link_file o)
                     (progress_file o) m (rate_limiter o) (max_workers o)
                     (product_count o) (processed_urls o))
          (fs st) (trace st).

Definition set_rate_limiter (r : Throttle.SmartRateLimiter) (st : state) : state :=
  let o := self st in
  mkState (mkScraper (base_url o) (category_name o) (filename o) (link_file o)
                     (progress_file o) (session_manager o) r (max_workers o)
                     (product_count o) (processed_urls o))
          (fs st) (trace st).

Definition set_product_count (n : nat) (st : state) : state :=
  let o := self st in
  mkState (mkScraper (base_url o) (category_name o) (filename o) (link_file o)
                     (progress_file o) (session_manager o) (rate_limiter o)
                     (max_workers o) n (processed_urls o))
          (fs st) (trace st).

Definition set_processed_urls (u : gset pystr) (st : state) : state :=
  let o := self st in
  mkState (mkScraper (base_url o) (category_name o) (filename o) (link_file o)
                     (progress_file o) (session_manager o) (rate_limiter o)
                     (max_workers o) (product_count o) u)
          (fs st) (trace st).

Definition set_fs (f : gmap pystr pystr) (st : state) : state :=
  mkState (self st) f (trace st).

Definition log (e : event) (st : state) : state :=
  mkState (self st) (fs st) (trace st ++ [e]).

(** [open(path, 'w')] then the writes, and [open(path, 'a')] then the
    writes. *)
Definition write_file (path data : pystr) (f : gmap pystr pystr) : gmap pystr pystr :=
  <[path := data]> f.

Definition append_file (path data : pystr) (f : gmap pystr pystr) : gmap pystr pystr :=
  <[path := default [] (f !! path) ++ data]> f.

(** How a call ends: with a value, with an uncaught exception, or not
    within the steps allowed to an unbounded loop. *)
Inductive exn : Type := IndexError.

Inductive result (A : Type) : Type :=
| Done (a : A) (st : state)
| Raised (e : exn) (st : state)
| OutOfFuel.

Arguments Done {A} a st.
Arguments Raised {A} e st.
Arguments OutOfFuel {A}.

Definition bind {A B : Type} (m : result A) (k : A -> state -> result B) : result B :=
  match m with
  | Done a st => k a st
  | Raised e st => Raised e st
  | OutOfFuel => OutOfFuel
  end.


(** The column names of the structured-record file. *)
Definition FIELDNAMES : list pystr :=
  [lit "Title"; lit "Price"; lit "Condition"; lit "Description";
   lit "Post Date"; lit "URL"; lit "Scraped at"].

(** [csv.DictWriter(f, fieldnames=FIELDNAMES).writeheader()]: the names
    hold no delimiter, quote or line break, so minimal quoting leaves them
    bare; [QUOTE_ALL] quotes each. *)
Definition csv_header (quote_all : bool) : pystr :=
  join (lit ",")
       (List.map (fun f => if quote_all then DQUOTE :: f ++ [DQUOTE] else f)
                 FIELDNAMES)
  ++ [CR; LF].

(** ** The resume ledger *)

(** [load_progress] *)
Definition load_progress (st : state) : state :=
  match fs st !! progress_file (self st) with
  | Some content =>
      set_processed_urls (list_to_set (List.map strip (file_lines content))) st
  | None => st
  end.

(** [save_progress] *)
Definition save_progress (url : pystr) (st : state) : state :=
  if decide (url ∈ processed_urls (self st)) then st
  else
    let st1 := set_processed_urls ({[url]} ∪ processed_urls (self st)) st in
    set_fs (append_file (progress_file (self st)) (url ++ [LF]) (fs st1)) st1.

(** Recording a list of URLs, one [save_progress] after the other. *)
Definition record_all (urls : list pystr) (st : state) : state :=
  fold_left (fun st url => save_progress url st) urls st.

(** A URL that survives the ledger file: no line break inside (line feed
    or carriage return, the two characters a text-mode read ends a line
    at) and nothing for [strip] to remove. *)
Definition clean_url (url : pystr) : Prop :=
  (LF ∉ url) /\ (CR ∉ url) /\ strip url = url.

(** ** Construction *)

Definition default_max_workers : nat := 7.

(** [OptimizedAvitoScraper.__init__], run on the files [files]. *)
Definition init (base_url category_name : pystr) (max_workers : nat)
                (files : gmap pystr pystr) : state :=
  let filename := category_name ++ lit "_products_from_avito.csv" in
  let o := mkScraper base_url category_name
                     filename
                     (category_name ++ lit "_links.txt")
                     (category_name ++ lit "_progress.txt")
                     (Sessions.init max_workers)
                     (Throttle.init (8 # 10) 6)
                     max_workers 0 ∅ in
  let st := load_progress (mkState o files []) in
  match fs st !! filename with
  | None => set_fs (write_file filename (csv_header false) (fs st)) st
  | Some _ => st
  end.

(** ** Fetching *)

Section Environment.

(** The remote site: what [session.get] does for a session and a URL,
    given everything the run has done so far. *)
Variable net : list event -> Sessions.session -> pystr -> outcome.

(** Library functions: [str.upper], [re.sub(pattern, repl, string)] (the
    flag tells whether [re.IGNORECASE | re.DOTALL] is passed), and
    [datetime.now().strftime("%Y-%m-%d %H:%M:%S")] at a point of the run. *)
Variable upper : pystr -> pystr.
Variable re_sub : pystr -> pystr -> pystr -> bool -> pystr.
Variable now : list event -> pystr.

Definition on_rate_limiter (f : Throttle.SmartRateLimiter -> Throttle.SmartRateLimiter)
                           (st : state) : state :=
  set_rate_limiter (f (rate_limiter (self st))) st.

(** [rate_limiter.wait()] *)
Definition wait (st : state) : state :=
  log (EvWait (Throttle.current_delay (rate_limiter (self st)))) st.

(** The body of [for attempt in range(retries)], from iteration [attempt]
    on, with [remaining] iterations left. *)
Fixpoint request_loop (s : Sessions.session) (url : pystr)
                      (retries attempt remaining : nat) (st : state)
  : option response * state :=
  match remaining with
  | O => (None, st)
  | S remaining' =>
      let st1 := wait st in
      let st2 := log (EvGet s url) st1 in
      match net (trace st1) s url with
      | Responded r =>
          if (status_code r =? 200)%Z then
            (Some r, on_rate_limiter Throttle.record_success st2)
          else if (status_code r =? 429)%Z then
            let st3 := on_rate_limiter (Throttle.record_error (Some 429%Z)) st2 in
            let st4 := log (EvSleep ((attempt + 1) * 10)) st3 in
            request_loop s url retries (S attempt) remaining' st4
          else
            let st3 := on_rate_limiter
                         (Throttle.record_error (Some (status_code r))) st2 in
            request_loop s url retries (S attempt) remaining' st3
      | RequestException =>
          let st3 := on_rate_limiter (Throttle.record_error None) st2 in
          let st4 := if attempt <? retries - 1
                     then log (EvSleepUniform 2 5) st3 else st3 in
          request_loop s url retries (S attempt) remaining' st4
      end
  end.

(** [make_request(url, retries)] *)
Definition make_request (url : pystr) (retries : nat) (st : state)
  : result (option response) :=
  match Sessions.get_session (session_manager (self st)) with
  | None => Raised IndexError st
  | Some (s, m) =>
      let (r, st') := request_loop s url retries 0 retries
                                   (set_session_manager m st) in
      Done r st'
  end.

(** ** Link discovery *)

Definition link_selectors : list pystr :=
  [lit "a.jZXrfL"; lit "a[href*='/ordinateurs']"; lit ".oan5vy-0 a";
   lit "a[data-testid='item-link']"].

(** The selector loop: the items of the first selector that finds any. *)
Fixpoint select_items (doc : soup) (selectors : list pystr) : list element :=
  match selectors with
  | [] => []
  | selector :: rest =>
      match select doc selector with
      | [] => select_items doc rest
      | items => items
      end
  end.

(** The links of a page that are kept: category links, made absolute, not
    yet processed. *)
Fixpoint new_links (items : list element) (processed : gset pystr) : list pystr :=
  match items with
  | [] => []
  | item :: rest =>
      match get (lit "href") (attrs item) with
      | Some href =>
          if truthy href
             && (contains href (lit "/ordinateurs") || contains href (lit "desktop")
                 || contains href (lit "bureau"))
          then
            let full_url := if startswith href (lit "/")
                            then lit "https://www.avito.ma" ++ href else href in
            if decide (full_url ∈ processed) then new_links rest processed
            else full_url :: new_links rest processed
          else new_links rest processed
      | None => new_links rest processed
      end
  end.

Definition page_url (base : pystr) (page : nat) : pystr :=
  if 1 <? page then base ++ lit "?o=" ++ str_of_nat page else base.

(** The [while True] loop of [collect_links_optimized], entered with the
    given [page], [total_links] and [collected_links]; it ends at a
    [break] with the links collected so far. *)
Fixpoint collect_loop (fuel page total_links : nat) (collected_links : list pystr)
                      (st : state) : result (list pystr) :=
  match fuel with
  | O => OutOfFuel
  | S fuel' =>
      bind (make_request (page_url (base_url (self st)) page) 3 st)
        (fun response st1 =>
           match response with
           | None => Done collected_links st1
           | Some r =>
               match select_items (body r) link_selectors with
               | [] => Done collected_links st1
               | items =>
                   let links := new_links items (processed_urls (self st1)) in
                   if (length links <? 5) && (1 <? page)
                   then Done collected_links st1
                   else
                     collect_loop fuel' (S page) (total_links + length links)
                                  (collected_links ++ links)
                                  (log (EvSleepUniform 1 2) st1)
               end
           end)
  end.

(** [collect_links_optimized] *)
Definition collect_links_optimized (fuel : nat) (st : state) : result (list pystr) :=
  bind (collect_loop fuel 1 0 [] st)
    (fun collected_links st1 =>
       Done collected_links
            (set_fs (write_file (link_file (self st1))
                                (List.concat (List.map (fun url => url ++ [LF])
                                                       collected_links))
                                (fs st1)) st1)).

(** How the discovery step of [scrape_optimized] ends. *)
Inductive discovery : Type :=
| FailedToCollect            (* "Failed to collect any links. Exiting." *)
| NoNewLinks                 (* "No new links to process. Exiting." *)
| ToProcess (all_links : list pystr).

(** [scrape_optimized], up to the point where processing starts. *)
Definition discover (fuel : nat) (st : state) : result discovery :=
  match fs st !! link_file (self st) with
  | Some content =>
      let all_links :=
        List.filter (fun l => negb (bool_decide (l ∈ processed_urls (self st))))
                    (List.map strip (file_lines content)) in
      match all_links with
      | [] => Done NoNewLinks st
      | _ => Done (ToProcess all_links) st
      end
  | None =>
      bind (collect_links_optimized fuel st)
        (fun all_links st1 =>
           match all_links with
           | [] => Done FailedToCollect st1
           | _ => Done (ToProcess all_links) st1
           end)
  end.

(** ** Extraction *)

Definition quoted (s : string) : pystr := DQUOTE :: lit s ++ [DQUOTE].

Definition desc_selectors : list pystr :=
  [lit "[data-testid=" ++ quoted "ad-description" ++ lit "]";
   lit "div[data-testid=" ++ quoted "ad-description" ++ lit "]";
   lit ".sc-1g3sn3w-12";
   lit ".ad-description";
   lit "div[class*=" ++ quoted "description" ++ lit "]";
   lit "section[data-testid=" ++ quoted "ad-description" ++ lit "]";
   lit "[class*=" ++ quoted "AdDescription" ++ lit "]";
   lit ".description-content";
   lit "div.sc-ij98yj-0"].

(** The emoji of strategy 1, as code points: red circle, round pushpin,
    high voltage, battery, check mark, flag of Morocco (two regional
    indicators), package, delivery truck. *)
Definition selector_emojis : list pystr :=
  [[128308%N]; [128205%N]; [9889%N]; [128267%N]; [9989%N];
   [127474%N; 127462%N]; [128230%N]; [128666%N]].

Definition selector_specs : list pystr :=
  [lit "PROCESSEUR"; lit "RAM"; lit "SSD"; lit "ECRAN"; lit "PRIX";
   lit "LIVRAISON"; lit "INTEL"; lit "AMD"; lit "NVIDIA"].

(** The text shows an emoji of the list, or its upper-cased form shows a
    specification keyword. *)
Definition has_marker (desc_text : pystr) : bool :=
  existsb (fun emoji => contains desc_text emoji) selector_emojis
  || existsb (fun spec => contains (upper desc_text) spec) selector_specs.

(** The test of strategy 1 on the text of an element. *)
Definition accepts (desc_text : pystr) : bool :=
  (50 <? length desc_text) && has_marker desc_text.

(** The inner loop of strategy 1: the text of the first element accepted. *)
Fixpoint first_accepted (elements : list element) : option pystr :=
  match elements with
  | [] => None
  | element :: rest =>
      let desc_text := get_text_strip element in
      if accepts desc_text then Some desc_text else first_accepted rest
  end.

(** Strategy 1. An accepted text has more than 50 characters, so
    [if description: break] leaves the selector loop as soon as the inner
    loop has accepted an element. *)
Fixpoint structured_phase (doc : soup) (selectors : list pystr) : option pystr :=
  match selectors with
  | [] => None
  | selector :: rest =>
      match first_accepted (select doc selector) with
      | Some description => Some description
      | None => structured_phase doc rest
      end
  end.

Definition emoji_indicators : list pystr :=
  selector_emojis ++ [[9742%N; 65039%N]].

Definition tech_specs : list pystr :=
  [lit "PROCESSEUR"; lit "RAM"; lit "SSD"; lit "HDD"; lit "ECRAN";
   lit "CARTE GRAPHIQUE"; lit "BATTERIE"; lit "INTEL"; lit "AMD"; lit "NVIDIA"].

Definition computer_terms : list pystr :=
  [lit "RYZEN"; lit "CORE"; lit "DDR4"; lit "DDR5"; lit "NVME"; lit "FULL HD";
   lit "4K"; lit "IPS"; lit "WINDOWS"; lit "OFFICE"].

Definition nav_elements : list pystr :=
  [lit "ACCUEIL"; lit "SE CONNECTER"; lit "PUBLIER"; lit "TOUT LE MAROC";
   lit "AVITO MARKET"].

(** [sum(weight for w in words if test w)] *)
Definition weighted (weight : Z) (test : pystr -> bool) (words : list pystr) : Z :=
  fold_right (fun w acc => ((if test w then weight else 0) + acc)%Z) 0%Z words.

(** The score strategy 2 gives to a text. *)
Definition score (div_text : pystr) : Z :=
  let up := upper div_text in
  (weighted 2 (fun emoji => contains div_text emoji) emoji_indicators
   + weighted 3 (fun spec => contains up (upper spec)) tech_specs
   + weighted 1 (fun term => contains up (upper term)) computer_terms
   + (if contains up (lit "PRIX") || contains up (lit "DH") then 2 else 0)
   + (if contains up (lit "LIVRAISON") || contains up (lit "CONTACTEZ") then 1 else 0)
   - weighted 5 (fun nav => contains up (upper nav)) nav_elements)%Z.

(** One iteration of the loop of strategy 2 over
    [(best_candidate, best_score)]. *)
Definition scored_step (best : option pystr * Z) (div : element) : option pystr * Z :=
  let div_text := get_text_strip div in
  if (length div_text <? 50) || (2000 <? length div_text) then best
  else
    let sc := score div_text in
    if (snd best <? sc)%Z && (3 <=? sc)%Z then (Some div_text, sc) else best.

(** Strategy 2. *)
Definition scored_phase (doc : soup) : option pystr :=
  fst (fold_left scored_step
                 (find_all doc [lit "div"; lit "section"; lit "article"] None)
                 (None, 0%Z)).

(** What the loop of strategy 2 maintains over the blocks [seen] so far:
    every text in range scores at most the best score or below 3, and the
    best candidate, when there is one, is the text in range of a block
    seen, with the best score, which is 3 at least. *)
Definition best_so_far (seen : list element) (acc : option pystr * Z) : Prop :=
  (forall d, In d seen ->
     50 <= length (get_text_strip d) /\ length (get_text_strip d) <= 2000 ->
     (score (get_text_strip d) <= snd acc \/ score (get_text_strip d) < 3)%Z)
  /\ match fst acc with
     | None => snd acc = 0%Z
     | Some t =>
         exists d, In d seen /\ t = get_text_strip d
                   /\ 50 <= length t /\ length t <= 2000
                   /\ score t = snd acc /\ (3 <= snd acc)%Z
     end.

(** The description before clean-up, and whether strategy 2 was run to
    get it. *)
Definition find_description (doc : soup) : option pystr * bool :=
  match structured_phase doc desc_selectors with
  | Some description => (Some description, false)
  | None => (scored_phase doc, true)
  end.

Definition unwanted_patterns : list pystr :=
  [lit ".*?Avito\.ma\s*";
   lit "Auto neuf.*?Publier une annonce.*?";
   lit ".*?INFORMATIQUE ET MULTIMEDIA.*?Ordinateurs.*?";
   lit ".*?Accueil.*?Avito Market.*?"].

(** The clean-up of a description that was found. *)
Definition clean_description (description : pystr) : pystr :=
  let d1 := re_sub (lit "\s+") (lit " ") description false in
  let d2 := fold_left (fun d pattern => re_sub pattern [] d true)
                      unwanted_patterns d1 in
  let d3 := strip d2 in
  if 800 <? length d3 then
    let lines := split 46%N d3 in
    let core_lines :=
      List.filter (fun line => 10 <? length line)
                  (List.map strip (firstn 5 lines)) in
    match core_lines with
    | [] => d3
    | _ => join (lit ". ") core_lines ++ lit "."
    end
  else d3.

(** The placeholders of a field that was not found. *)
Definition NA : pystr := lit "N/A".
Definition NOT_SPECIFIED : pystr := lit "Not specified".

(** [extract_description_improved] *)
Definition extract_description_improved (doc : soup) : pystr :=
  match fst (find_description doc) with
  | Some description =>
      let cleaned := clean_description description in
      if truthy cleaned then cleaned else NA
  | None => NA
  end.

(** The dictionary [extract_info] returns. *)
Record product : Type := mkProduct {
  Title : pystr;
  Price : pystr;
  Condition : pystr;
  Description : pystr;
  Post_Date : pystr;
  URL : pystr;
  Scraped_at : pystr
}.

Definition extract_title (doc : soup) : pystr :=
  match find doc (lit "h1") None with
  | Some title_element => strip (text title_element)
  | None => NA
  end.

Definition price_selectors : list pystr :=
  [lit "p.sc-1x0vz2r-0.sc-1veij0r-10"; lit "[data-testid='price']";
   lit ".price"; lit "span[class*='price']"].

(** The price loop; [8239] is the narrow no-break space. *)
Fixpoint extract_price (doc : soup) (selectors : list pystr) : pystr :=
  match selectors with
  | [] => NA
  | selector :: rest =>
      match select_one doc selector with
      | Some price_tag => replace_char 8239%N 32%N (strip (text price_tag))
      | None => extract_price doc rest
      end
  end.

Definition extract_post_date (doc : soup) : pystr :=
  match select_one doc (lit "span.iKguVF time") with
  | Some post_date_tag =>
      match get (lit "datetime") (attrs post_date_tag) with
      | Some datetime => datetime
      | None => NA
      end
  | None => NA
  end.

Definition extract_condition (doc : soup) : pystr :=
  match select_one doc (lit "div.kuofIS span.fjZBup") with
  | Some condition => strip (text condition)
  | None => NOT_SPECIFIED
  end.

(** The record built from a page. *)
Definition extract_fields (doc : soup) (url scraped_at : pystr) : product :=
  mkProduct (extract_title doc)
            (extract_price doc price_selectors)
            (extract_condition doc)
            (extract_description_improved doc)
            (extract_post_date doc)
            url scraped_at.

(** [extract_info]. None of the modelled operations raises, so the
    [except] branches, which assign the same placeholders, are not
    reached. *)
Definition extract_info (url : pystr) (st : state) : result (option product) :=
  if decide (url ∈ processed_urls (self st)) then Done None st
  else
    bind (make_request url 3 st)
      (fun response st1 =>
         match response with
         | None => Done None st1
         | Some r =>
             let p := extract_fields (body r) url (now (trace st1)) in
             let st2 := set_product_count (S (product_count (self st1))) st1 in
             Done (Some p) (save_progress url st2)
         end).

End Environment.

(** ** Observations on a run *)

(** The requests of a trace, in order: the session used and the URL. *)
Fixpoint gets (tr : list event) : list (Sessions.session * pystr) :=
  match tr with
  | [] => []
  | EvGet s url :: rest => (s, url) :: gets rest
  | _ :: rest => gets rest
  end.

(** The fixed sleeps of a trace, in seconds, in order. *)
Fixpoint sleeps (tr : list event) : list nat :=
  match tr with
  | [] => []
  | EvSleep seconds :: rest => seconds :: sleeps rest
  | _ :: rest => sleeps rest
  end.

(** The state a call leaves, and the state it was made in when it does
    not end. *)
Definition state_after {A : Type} (st : state) (m : result A) : state :=
  match m with
  | Done _ st' => st'
  | Raised _ st' => st'
  | OutOfFuel => st
  end.

(** ** Saving records *)

Section Sink.

(** [csv.DictWriter(f, fieldnames=FIELDNAMES).writerow(product)]: the text
    written for one record. *)
Variable writerow : product -> pystr.

(** [save_product_batch], on the files. A record is a non-empty
    dictionary, so [if product] holds for each. *)
Definition save_product_batch (path : pystr) (products : list product)
                              (files : gmap pystr pystr) : gmap pystr pystr :=
  append_file path (List.concat (List.map writerow products)) files.

(** The loop of [worker_batch] over the results of the futures in the
    order they complete, [results] being the records not yet saved: the
    batches handed to [save_product_batch], first one first. *)
Fixpoint batch_loop (completed : list (option product)) (results : list product)
  : list (list product) :=
  match completed with
  | [] =>
      match results with
      | [] => []
      | _ => [results]
      end
  | None :: rest => batch_loop rest results
  | Some result :: rest =>
      let results' := results ++ [result] in
      if 10 <=? length results' then results' :: batch_loop rest []
      else batch_loop rest results'
  end.

(** What [worker_batch] writes, given the results in completion order. *)
Definition worker_batch_sink (path : pystr) (completed : list (option product))
                             (files : gmap pystr pystr) : gmap pystr pystr :=
  fold_left (fun f batch => save_product_batch path batch f)
            (batch_loop completed []) files.

End Sink.

(** ** Batches of URLs *)

(** [range(start, stop, step)] for [step >= 1], from the value [i]. *)
Fixpoint range_aux (fuel i stop step : nat) : list nat :=
  match fuel with
  | O => []
  | S fuel' =>
      if i <? stop then i :: range_aux fuel' (i + step) stop step else []
  end.

Definition range (start stop step : nat) : list nat :=
  range_aux stop start stop step.

Definition batch_size : nat := 100.

(** The batches [scrape_optimized] hands to [worker_batch], each with the
    [batch_num] that is printed for it. *)
Definition url_batches (all_links : list pystr) : list (nat * list pystr) :=
  List.map (fun i => (i / batch_size + 1,
                      firstn batch_size (skipn i all_links)))
           (range 0 (length all_links) batch_size).

(** [total_batches] as [scrape_optimized] prints it. *)
Definition total_batches (all_links : list pystr) : nat :=
  (length all_links + batch_size - 1) / batch_size.

End Avito.

(* ===================================================================== *)
(** * [jumia_scraper.py]                                                  *)
(* ===================================================================== *)

Module Jumia.

Import Html.

(** [f.readline()] on a file opened with [newline='']: the first line with
    its terminator, the empty string at the end of the file. *)
Fixpoint readline (content : pystr) : pystr :=
  match content with
  | [] => []
  | c :: rest =>
      if (c =? LF)%N then [LF]
      else if (c =? CR)%N then
        match rest with
        | d :: _ => if (d =? LF)%N then [CR; LF] else [CR]
        | [] => [CR]
        end
      else c :: readline rest
  end.

(** [write_header_if_needed] *)
Definition write_header_if_needed (file_path : pystr) (files : gmap pystr pystr)
  : gmap pystr pystr :=
  match files !! file_path with
  | Some content =>
      if truthy (readline content) then files
      else Avito.write_file file_path (Avito.csv_header true) files
  | None => Avito.write_file file_path (Avito.csv_header true) files
  end.

Fixpoint split_ws_aux (cur : pystr) (s : pystr) : list pystr :=
  match s with
  | [] => match cur with [] => [] | _ => [cur] end
  | c :: rest =>
      if is_space c then
        match cur with
        | [] => split_ws_aux [] rest
        | _ => cur :: split_ws_aux [] rest
        end
      else split_ws_aux (cur ++ [c]) rest
  end.

(** [s.split()] *)
Definition split_ws (s : pystr) : list pystr := split_ws_aux [] s.

Definition unbreak (s : pystr) : pystr :=
  replace_char CR 32%N (replace_char LF 32%N s).

(** The description of a product page. *)
Definition extract_description (doc : soup) : pystr :=
  match find doc (lit "div") (Some (lit "markup -pam")) with
  | Some div =>
      let d1 := get_text_sep_strip (lit " ") div in
      let d2 := join (lit " ") (split_ws d1) in
      let d3 := replace_char 9%N 32%N (unbreak d2) in
      if 500 <? length d3 then firstn 500 d3 ++ lit "..." else d3
  | None => Avito.NA
  end.

(** [product_data] of [scrape_single_product], built from the page and
    the two renderings of [datetime.now()]. *)
Definition product_data (doc : soup) (link post_date scraped_at : pystr)
  : Avito.product :=
  let title :=
    match find doc (lit "h1") (Some (lit "-fs20 -pts -pbxs")) with
    | Some title_elem => strip (text title_elem)
    | None => Avito.NA
    end in
  let price :=
    match find doc (lit "span") (Some (lit "-b -ubpt -tal -fs24 -prxs")) with
    | Some price_elem => strip (text price_elem)
    | None => Avito.NA
    end in
  Avito.mkProduct (unbreak title) (unbreak price) (lit "New")
                  (extract_description doc) post_date link scraped_at.

(** ** Link collection *)

Definition baseurl : pystr := lit "https://www.jumia.ma/".

Section Catalog.

(** The listing pages: for the page requested with [?page=n], the product
    articles found on it, each given by the [href] values of its
    [a.core] links. *)
Variable listing : nat -> list (list pystr).

(** [page_links] of one page. *)
Definition page_links (productlist : list (list pystr)) : list pystr :=
  flat_map (fun item => List.map (fun href => baseurl ++ href) item) productlist.

(** The [while True] loop of [scrape_category], entered with the given
    [page] and [productlinks]. *)
Fixpoint collect_pages (fuel page : nat) (productlinks : list pystr)
  : option (list pystr) :=
  match fuel with
  | O => None
  | S fuel' =>
      match listing page with
      | [] => Some productlinks
      | productlist =>
          collect_pages fuel' (S page) (productlinks ++ page_links productlist)
      end
  end.

End Catalog.

End Jumia.

(* ===================================================================== *)
(** * Sample sites and pages                                              *)
(* ===================================================================== *)

Module Samples.

Import Html Avito.

Definition category_root : pystr :=
  lit "https://www.avito.ma/fr/maroc/ordinateurs_bureau".

(** A freshly constructed scraper, no file present. *)
Definition fresh : state := init category_root (lit "desktop") default_max_workers ∅.

(** The identity the first [get_session] of a fresh scraper hands out. *)
Definition first_session : Sessions.session := Sessions.make_session 0.

(** A site that answers every request with the same status code and an
    empty document. *)
Definition net_status (code : Z) : list event -> Sessions.session -> pystr -> outcome :=
  fun _ _ _ => Responded (mkResponse code empty_soup).

(** A listing page: [n] items matched by the first link selector, item [k]
    linking to [/ordinateurs/p<page>-<k>]. *)
Definition item_link (page k : nat) : element :=
  mkElement [] [(lit "href",
                 lit "/ordinateurs/p" ++ str_of_nat page ++ lit "-" ++ str_of_nat k)].

Definition listing (page n : nat) : soup :=
  mkSoup (fun selector =>
            if Py.eqb selector (lit "a.jZXrfL")
            then List.map (item_link page) (seq 0 n) else [])
         (fun _ _ => []).

(** A category of three listing pages with 6, 4 and 10 items. *)
Definition net_category : list event -> Sessions.session -> pystr -> outcome :=
  fun _ _ url =>
    if Py.eqb url category_root then Responded (mkResponse 200 (listing 1 6))
    else if Py.eqb url (category_root ++ lit "?o=2")
         then Responded (mkResponse 200 (listing 2 4))
    else if Py.eqb url (category_root ++ lit "?o=3")
         then Responded (mkResponse 200 (listing 3 10))
    else Responded (mkResponse 404 empty_soup).

(** The URLs requested in a trace, in order. *)
Fixpoint requested (tr : list event) : list pystr :=
  match tr with
  | [] => []
  | EvGet _ url :: rest => url :: requested rest
  | _ :: rest => requested rest
  end.

(** The state a call ends in, the given state when it does not end. *)
Definition final_state {A : Type} (st : state) (m : result A) : state :=
  match m with
  | Done _ st' => st'
  | Raised _ st' => st'
  | OutOfFuel => st
  end.

Definition value {A : Type} (m : result A) : option A :=
  match m with
  | Done a _ => Some a
  | _ => None
  end.

(** An element with a single text node. *)
Definition block (text : pystr) : element := mkElement [text] [].

(** A text of exactly 50 characters, the first one a check-mark emoji. *)
Definition fifty : pystr := 9989%N :: repeat 97%N 49.

(** A text of 51 characters, the first one a check-mark emoji. *)
Definition fifty_one : pystr := 9989%N :: repeat 97%N 50.

(** A product page whose description container holds the given text and
    nothing else that the extraction looks for. *)
Definition description_page (text : pystr) : soup :=
  mkSoup (fun selector =>
            if Py.eqb selector (lit ".ad-description") then [block text] else [])
         (fun _ _ => []).

(** [str.upper] on ASCII letters, other characters left as they are. *)
Definition ascii_upper (s : pystr) : pystr :=
  List.map (fun c => if ((97 <=? c) && (c <=? 122))%N then (c - 32)%N else c) s.

(** A stand-in for [re.sub] that leaves the text as it is. *)
Definition no_sub (pattern repl text : pystr) (flags : bool) : pystr := text.

End Samples.
(* ===================================================================== *)
(** * Theorems                                                            *)
(* ===================================================================== *)

(* --------------------------------------------------------------------- *)
(** ** The throttle                                                       *)
(* --------------------------------------------------------------------- *)

Section ThrottleFacts.

Import Throttle.
Local Open Scope Q_scope.

Lemma py_max_Qmax (a b : Q) : py_max a b == Qmax a b.
Proof.
  unfold py_max. destruct (a ?= b) eqn:E.
  - apply Qeq_alt in E. rewrite Q.max_l; [reflexivity | rewrite E; apply Qle_refl].
  - apply Qlt_alt in E. rewrite Q.max_r; [reflexivity | apply Qlt_le_weak, E].
  - apply Qgt_alt in E. rewrite Q.max_l; [reflexivity | apply Qlt_le_weak, E].
Qed.

Lemma py_min_Qmin (a b : Q) : py_min a b == Qmin a b.
Proof.
  unfold py_min. destruct (b ?= a) eqn:E.
  - apply Qeq_alt in E. rewrite Q.min_l; [reflexivity | rewrite E; apply Qle_refl].
  - apply Qlt_alt in E. rewrite Q.min_r; [reflexivity | apply Qlt_le_weak, E].
  - apply Qgt_alt in E. rewrite Q.min_l; [reflexivity | apply Qlt_le_weak, E].
Qed.

Lemma py_max_bounds (lo hi x : Q) :
  lo <= hi -> x <= hi -> lo <= py_max lo x /\ py_max lo x <= hi.
Proof.
  intros Hlh Hx. rewrite py_max_Qmax. split.
  - apply Q.le_max_l.
  - apply Q.max_lub; assumption.
Qed.

Lemma py_min_bounds (lo hi x : Q) :
  lo <= hi -> lo <= x -> lo <= py_min hi x /\ py_min hi x <= hi.
Proof.
  intros Hlh Hx. rewrite py_min_Qmin. split.
  - apply Q.min_glb; assumption.
  - apply Q.le_min_l.
Qed.

(** The floor and the ceiling are never written after construction. *)
Lemma step_limits (r : SmartRateLimiter) (c : call) :
  base_delay (step r c) = base_delay r /\ max_delay (step r c) = max_delay r.
Proof.
  destruct c as [|sc]; simpl; unfold record_success, record_error.
  - destruct (15 <=? S (success_count r))%nat; simpl; auto.
  - destruct (is_429 sc); [|destruct (5 <=? S (error_count r))%nat]; simpl; auto.
Qed.

Lemma step_in_bounds (r : SmartRateLimiter) (c : call) :
  0 <= base_delay r -> base_delay r <= max_delay r ->
  in_bounds r -> in_bounds (step r c).
Proof.
  intros H0 Hlh [Hlo Hhi]. unfold in_bounds.
  destruct c as [|sc]; simpl; unfold record_success, record_error.
  - destruct (15 <=? S (success_count r))%nat; simpl; [|auto].
    apply py_max_bounds; [assumption | lra].
  - destruct (is_429 sc); [|destruct (5 <=? S (error_count r))%nat]; simpl;
      [apply py_min_bounds; [assumption | lra]
      |apply py_min_bounds; [assumption | lra]
      |auto].
Qed.

Lemma run_in_bounds (calls : list call) (r : SmartRateLimiter) :
  0 <= base_delay r -> base_delay r <= max_delay r ->
  in_bounds r ->
  in_bounds (run calls r)
  /\ base_delay (run calls r) = base_delay r
  /\ max_delay (run calls r) = max_delay r.
Proof.
  revert r. induction calls as [|c calls IH]; intros r H0 Hlh Hin.
  - simpl. auto.
  - simpl. destruct (step_limits r c) as [Eb Em].
    destruct (IH (step r c)) as (Hin' & Eb' & Em').
    + rewrite Eb. assumption.
    + rewrite Eb, Em. assumption.
    + apply step_in_bounds; assumption.
    + rewrite Eb', Em', Eb, Em. auto.
Qed.

(** C1 (as amended). Starting from the initial state, where the delay is
    the floor [base_delay], every finite sequence of [record_success] and
    [record_error] calls leaves [current_delay] within
    [[base_delay, max_delay]], provided [0 <= base_delay <= max_delay]. *)
Theorem throttle_delay_within_bounds (base max : Q) (calls : list call) :
  0 <= base -> base <= max ->
  base <= current_delay (run calls (init base max))
  /\ current_delay (run calls (init base max)) <= max.
Proof.
  intros H0 Hlh.
  destruct (run_in_bounds calls (init base max)) as ([Hlo Hhi] & Eb & Em);
    simpl; try assumption.
  - split; [apply Qle_refl | assumption].
  - rewrite Eb, Em in *. simpl in *. auto.
Qed.

Lemma throttle_delay_within_bounds_witness :
  let calls := [Success; Error (Some 429%Z); Error None; Error (Some 503%Z)] in
  (8 # 10) <= current_delay (run calls (init (8 # 10) 6))
  /\ current_delay (run calls (init (8 # 10) 6)) <= 6.
Proof.
  apply (throttle_delay_within_bounds (8 # 10) 6); vm_compute; discriminate.
Defined.

(** C1, as stated, fails: with only [floor <= ceiling] assumed, a negative
    floor is doubled away from zero by a rate-limit signal and the delay
    falls below the floor. *)
Lemma throttle_negative_floor_escapes :
  ~ (forall (base max : Q) (calls : list call),
        base <= max ->
        base <= current_delay (run calls (init base max))
        /\ current_delay (run calls (init base max)) <= max).
Proof.
  intros H.
  destruct (H (-1) 1 [Error (Some 429%Z)]) as [Hlo _].
  - vm_compute; discriminate.
  - vm_compute in Hlo. apply Hlo. reflexivity.
Qed.

(** For a negative floor the bound is lost on the first rate-limit signal,
    whatever the ceiling: non-negativity of the floor is needed. *)
Lemma throttle_bounds_need_nonneg_floor (base max : Q) :
  base < 0 -> base <= max ->
  current_delay (run [Error (Some 429%Z)] (init base max)) < base.
Proof.
  intros Hneg Hlh. simpl. unfold record_error. simpl.
  rewrite py_min_Qmin.
  apply Qle_lt_trans with (base * 2); [apply Q.le_min_r | lra].
Qed.

(** A streak of successes that stays below the threshold only counts. *)
Lemma run_success_below (k : nat) (r : SmartRateLimiter) :
  (success_count r + k < 15)%nat ->
  base_delay (run (repeat Success k) r) = base_delay r
  /\ max_delay (run (repeat Success k) r) = max_delay r
  /\ current_delay (run (repeat Success k) r) = current_delay r
  /\ success_count (run (repeat Success k) r) = (success_count r + k)%nat.
Proof.
  revert r. induction k as [|k IH]; intros r Hlt; simpl.
  - rewrite Nat.add_0_r. auto.
  - assert (E : record_success r =
                mkLimiter (base_delay r) (max_delay r) (current_delay r)
                          (S (success_count r)) 0).
    { unfold record_success.
      destruct (Nat.leb_spec 15 (S (success_count r))) as [Hle|_]; [lia | reflexivity]. }
    rewrite E. destruct (IH (mkLimiter (base_delay r) (max_delay r) (current_delay r)
                                       (S (success_count r)) 0)) as (Eb & Em & Ec & Es).
    + simpl. lia.
    + simpl in *. unfold run in *. rewrite Eb, Em, Ec, Es. repeat split; lia.
Qed.

(** The success that completes a streak. *)
Lemma record_success_decay (r : SmartRateLimiter) :
  (14 <= success_count r)%nat ->
  record_success r =
  mkLimiter (base_delay r) (max_delay r)
            (py_max (base_delay r) (current_delay r * (9 # 10))) 0 0.
Proof.
  intros Hge. unfold record_success.
  destruct (Nat.leb_spec 15 (S (success_count r))) as [_|Hlt]; [reflexivity | lia].
Qed.

(** A completing success followed by [c] more successes. *)
Lemma run_decay_then_count (c : nat) (r : SmartRateLimiter) :
  (14 <= success_count r)%nat -> (c <= 14)%nat ->
  current_delay (run (Success :: repeat Success c) r)
    = py_max (base_delay r) (current_delay r * (9 # 10))
  /\ success_count (run (Success :: repeat Success c) r) = c.
Proof.
  intros Hge Hc. unfold run. simpl fold_left.
  rewrite (record_success_decay r Hge).
  set (r2 := mkLimiter _ _ _ 0 0).
  destruct (run_success_below c r2) as (_ & _ & Ec2 & Es2); [simpl; lia|].
  unfold run in *. rewrite Ec2, Es2. simpl. auto.
Qed.

(** C3 (as amended). From any throttle state, 15 consecutive
    [record_success] calls decay the delay exactly once, to
    [max(base_delay, 0.9 * current_delay)]; the success counter ends at the
    value it had before the calls (14 at most), so it ends at 0 exactly
    when the 15 calls started from a counter of 0. *)
Theorem fifteen_successes_decay_once (r : SmartRateLimiter) :
  let r' := run (repeat Success 15) r in
  current_delay r' = py_max (base_delay r) (current_delay r * (9 # 10))
  /\ success_count r' = Nat.min (success_count r) 14
  /\ (success_count r' = 0%nat <-> success_count r = 0%nat).
Proof.
  intros r'. subst r'.
  destruct (le_lt_dec 14 (success_count r)) as [Hge|Hlt].
  - change (repeat Success 15) with (Success :: repeat Success 14).
    destruct (run_decay_then_count 14 r Hge) as [Ec Es]; [lia|].
    rewrite Ec, Es. repeat split; lia.
  - set (c := success_count r) in *.
    assert (Hsplit : repeat Success 15 =
                     repeat Success (14 - c) ++ Success :: repeat Success c).
    { replace 15%nat with ((14 - c) + S c)%nat by lia.
      rewrite repeat_app. reflexivity. }
    rewrite Hsplit. unfold run. rewrite fold_left_app.
    fold (run (repeat Success (14 - c)) r).
    destruct (run_success_below (14 - c) r) as (Eb & Em & Ec & Es);
      [fold c; lia|].
    fold c in Es.
    set (r1 := run (repeat Success (14 - c)) r) in *.
    fold (run (Success :: repeat Success c) r1).
    destruct (run_decay_then_count c r1) as [Ec1 Es1]; [lia | lia |].
    rewrite Ec1, Es1, Eb, Ec. repeat split; lia.
Qed.

(** C3, as stated, fails: three successes into a streak, fifteen more
    successes leave the counter at 3, not at 0. *)
Lemma fifteen_successes_counter_not_reset :
  ~ (forall r : SmartRateLimiter,
        let r' := run (repeat Success 15) r in
        current_delay r' = py_max (base_delay r) (current_delay r * (9 # 10))
        /\ success_count r' = 0%nat).
Proof.
  intros H.
  destruct (H (run (repeat Success 3) (init (8 # 10) 6))) as [_ Hs].
  vm_compute in Hs. discriminate Hs.
Qed.

(** C4. In every throttle state, whatever the success and error counters,
    one [record_error(429)] sets the delay to
    [min(max_delay, 2 * current_delay)]: the generic branch (x1.2 after five
    errors in a row) is not taken on that call. *)
Theorem rate_limited_doubles_delay (r : SmartRateLimiter) :
  current_delay (record_error (Some 429%Z) r)
    = py_min (max_delay r) (current_delay r * 2)
  /\ current_delay (record_error (Some 429%Z) r)
     == Qmin (max_delay r) (2 * current_delay r).
Proof.
  unfold record_error. simpl. split; [reflexivity|].
  rewrite py_min_Qmin. apply Q.min_compat; [reflexivity | ring].
Qed.

End ThrottleFacts.

(* --------------------------------------------------------------------- *)
(** ** The identity pool                                                  *)
(* --------------------------------------------------------------------- *)

Section SessionFacts.

Import Sessions.

Lemma user_agents_length : length user_agents = 4.
Proof. reflexivity. Qed.

Lemma user_agents_distinct : NoDup user_agents.
Proof.
  unfold user_agents.
  repeat (apply NoDup_cons_2; [vm_compute; intros H; repeat (inversion H as [|? ? ? H']; subst; clear H; rename H' into H); try discriminate|]).
  apply NoDup_nil_2.
Qed.

Lemma user_agent_make_session (i : nat) :
  user_agent (make_session i) = Some (nth (i mod 4) user_agents []).
Proof. reflexivity. Qed.

Lemma sessions_init_lookup (n i : nat) :
  i < n -> nth_error (sessions (init n)) i = Some (make_session i).
Proof.
  intros Hlt. unfold init. simpl.
  rewrite nth_error_map, nth_error_seq.
  destruct (Nat.ltb_spec i n); [reflexivity | lia].
Qed.

Lemma sessions_init_length (n : nat) : length (sessions (init n)) = n.
Proof. unfold init. simpl. rewrite length_map, length_seq. reflexivity. Qed.

(** Round-robin from any cursor position. *)
Lemma assign_from (n k c : nat) :
  c < n ->
  assign k (mkManager (sessions (init n)) c)
  = Some (List.map (fun j => make_session ((c + j) mod n)) (seq 0 k)).
Proof.
  revert c. induction k as [|k IH]; intros c Hc; [reflexivity|].
  cbn [assign]. unfold get_session. cbn [sessions current_session].
  change (List.map make_session (seq 0 n)) with (sessions (init n)).
  rewrite (sessions_init_lookup n c Hc), sessions_init_length.
  rewrite IH by (apply Nat.mod_upper_bound; lia).
  cbn [seq List.map]. rewrite Nat.add_0_r, (Nat.mod_small c n Hc).
  do 2 f_equal. rewrite <- seq_shift, List.map_map.
  apply List.map_ext. intros j. f_equal.
  rewrite Nat.Div0.add_mod_idemp_l. f_equal. lia.
Qed.

(** The scraper builds its pool with one identity per worker. *)
Lemma init_session_manager (base cat : pystr) (workers : nat) (files : gmap pystr pystr) :
  Avito.session_manager (Avito.self (Avito.init base cat workers files))
  = init workers.
Proof.
  unfold Avito.init.
  match goal with |- context [Avito.load_progress ?st0] => set (st := Avito.load_progress st0) end.
  assert (E : Avito.session_manager (Avito.self st) = init workers).
  { subst st. unfold Avito.load_progress.
    match goal with |- context [match ?x with _ => _ end] => destruct x end;
      reflexivity. }
  destruct (Avito.fs st !! _); [exact E|]. exact E.
Qed.

(** C10. The pool draws on 4 distinct user-agent strings, assigned
    cyclically at construction: in a pool of more than 4 identities,
    identity [i] carries the user agent of identity [i mod 4], while
    [get_session] hands out identity [j mod n] on its [j]-th call; the
    pool of the default configuration (7 workers) holds two identities
    with one user agent. *)
Theorem pool_user_agent_wraps (n : nat) :
  4 < n ->
  length user_agents = 4
  /\ NoDup user_agents
  /\ (forall i, i < n ->
        exists s s',
          nth_error (sessions (init n)) i = Some s
          /\ nth_error (sessions (init n)) (i mod 4) = Some s'
          /\ user_agent s = Some (nth (i mod 4) user_agents [])
          /\ user_agent s = user_agent s')
  /\ (forall k,
        assign k (init n)
        = Some (List.map (fun j => make_session (j mod n)) (seq 0 k)))
  /\ (forall (base cat : pystr) (files : gmap pystr pystr),
        let pool := sessions (Avito.session_manager
                      (Avito.self (Avito.init base cat Avito.default_max_workers files))) in
        length pool = 7
        /\ exists i j s s',
             i <> j
             /\ nth_error pool i = Some s /\ nth_error pool j = Some s'
             /\ user_agent s = user_agent s').
Proof.
  intros Hn. split; [exact user_agents_length|].
  split; [exact user_agents_distinct|].
  split; [|split].
  - intros i Hi. exists (make_session i), (make_session (i mod 4)).
    assert (Hm : i mod 4 < 4) by (apply Nat.mod_upper_bound; lia).
    rewrite (sessions_init_lookup n i Hi).
    rewrite (sessions_init_lookup n (i mod 4)) by lia.
    rewrite !user_agent_make_session, Nat.Div0.mod_mod. auto.
  - intros k. unfold init at 1. cbn [sessions].
    change (List.map make_session (seq 0 n)) with (sessions (init n)).
    rewrite (assign_from n k 0) by lia. reflexivity.
  - intros base cat files pool. subst pool.
    rewrite init_session_manager. split; [reflexivity|].
    exists 0, 4, (make_session 0), (make_session 4).
    split; [lia|]. repeat split.
Qed.

Lemma pool_user_agent_wraps_witness :
  length user_agents = 4
  /\ (exists s s',
        nth_error (sessions (init 7)) 6 = Some s
        /\ nth_error (sessions (init 7)) (6 mod 4) = Some s'
        /\ user_agent s = user_agent s')
  /\ assign 9 (init 7)
     = Some (List.map (fun j => make_session (j mod 7)) (seq 0 9)).
Proof.
  destruct (pool_user_agent_wraps 7) as (Hlen & _ & Hua & Hrr & _); [lia|].
  split; [exact Hlen|]. split; [|exact (Hrr 9)].
  destruct (Hua 6) as (s & s' & H1 & H2 & _ & H4); [lia|].
  exists s, s'. auto.
Defined.

End SessionFacts.

(* --------------------------------------------------------------------- *)
(** ** Strings and text files                                             *)
(* --------------------------------------------------------------------- *)

Section TextFacts.

Lemma lstrip_length (s : pystr) : length (lstrip s) <= length s.
Proof.
  induction s as [|c s IH]; simpl; [lia|].
  destruct (is_space c); simpl; lia.
Qed.

Lemma lstrip_fixed (s : pystr) :
  length (lstrip s) = length s -> lstrip s = s.
Proof.
  destruct s as [|c s]; simpl; [reflexivity|].
  destruct (is_space c); [|reflexivity].
  intros H. pose proof (lstrip_length s). lia.
Qed.

Lemma lstrip_fixed_head (s : pystr) :
  lstrip s = s -> s = [] \/ exists c s', s = c :: s' /\ is_space c = false.
Proof.
  destruct s as [|c s]; [auto|]. simpl.
  destruct (is_space c) eqn:E; [|eauto].
  intros H. pose proof (lstrip_length s) as Hl. rewrite H in Hl. simpl in Hl. lia.
Qed.

(** A string [strip] leaves alone has nothing to strip at either end. *)
Lemma strip_fixed_ends (s : pystr) :
  strip s = s -> lstrip s = s /\ lstrip (rev s) = rev s.
Proof.
  unfold strip, rstrip. intros H.
  assert (Hl : lstrip s = s).
  { apply lstrip_fixed. apply (f_equal (@length N)) in H.
    rewrite length_rev in H.
    pose proof (lstrip_length (rev (lstrip s))) as H1.
    rewrite length_rev in H1. pose proof (lstrip_length s). lia. }
  split; [exact Hl|]. rewrite Hl in H.
  apply (f_equal (@rev N)) in H. rewrite rev_involutive in H. exact H.
Qed.

(** The line terminator of a ledger line is what [strip] removes. *)
Lemma strip_line (u : pystr) : strip u = u -> strip (u ++ [LF]) = u.
Proof.
  intros H. destruct (strip_fixed_ends u H) as [Hl Hr].
  unfold strip, rstrip.
  destruct (lstrip_fixed_head u Hl) as [->|(c & u' & -> & Hc)]; [reflexivity|].
  assert (E : lstrip ((c :: u') ++ [LF]) = (c :: u') ++ [LF])
    by (simpl; rewrite Hc; reflexivity).
  rewrite E, rev_app_distr.
  change (rev [LF] ++ rev (c :: u')) with (LF :: rev (c :: u')).
  change (lstrip (LF :: rev (c :: u'))) with (lstrip (rev (c :: u'))).
  rewrite Hr. apply rev_involutive.
Qed.

Lemma universal_newlines_no_cr (s : pystr) :
  CR ∉ s -> universal_newlines s = s.
Proof.
  induction s as [|c s IH]; intros H; [reflexivity|].
  simpl. destruct (N.eqb_spec c CR) as [->|Hne].
  - exfalso. apply H. left.
  - f_equal. apply IH. intros Hin. apply H. right. exact Hin.
Qed.

Lemma lines_aux_line (u cur rest : pystr) :
  LF ∉ u ->
  lines_aux cur (u ++ LF :: rest) = (cur ++ u ++ [LF]) :: lines_aux [] rest.
Proof.
  revert cur. induction u as [|c u IH]; intros cur H; simpl.
  - reflexivity.
  - destruct (N.eqb_spec c LF) as [->|Hne].
    + exfalso. apply H. left.
    + rewrite IH by (intros Hin; apply H; right; exact Hin).
      rewrite <- app_assoc. reflexivity.
Qed.

(** The text of a ledger holding the URLs [ws], oldest first. *)
Lemma file_lines_ledger (ws : list pystr) :
  Forall Avito.clean_url ws ->
  file_lines (List.concat (List.map (fun u => u ++ [LF]) ws))
  = List.map (fun u => u ++ [LF]) ws.
Proof.
  intros Hok. unfold file_lines.
  rewrite universal_newlines_no_cr.
  - induction Hok as [|u ws (Hlf & _ & _) _ IH]; [reflexivity|].
    simpl. rewrite <- app_assoc. simpl.
    rewrite lines_aux_line by exact Hlf. simpl. f_equal. exact IH.
  - induction Hok as [|u ws (_ & Hcr & _) _ IH]; simpl.
    + apply not_elem_of_nil.
    + rewrite !elem_of_app. intros [[Hin|Hin]|Hin]; [auto| |auto].
      apply list_elem_of_singleton in Hin. discriminate Hin.
Qed.

Lemma strip_ledger_lines (ws : list pystr) :
  Forall Avito.clean_url ws ->
  List.map strip (List.map (fun u => u ++ [LF]) ws) = ws.
Proof.
  induction 1 as [|u ws (_ & _ & Hs) _ IH]; [reflexivity|].
  simpl. rewrite strip_line by exact Hs. f_equal. exact IH.
Qed.

End TextFacts.

(* --------------------------------------------------------------------- *)
(** ** The resume ledger                                                  *)
(* --------------------------------------------------------------------- *)

Section LedgerFacts.

Import Avito.

Lemma init_progress_file (base cat : pystr) (w : nat) (files : gmap pystr pystr) :
  progress_file (self (init base cat w files)) = cat ++ lit "_progress.txt".
Proof.
  unfold init.
  match goal with |- context [load_progress ?st0] => set (st := load_progress st0) end.
  assert (E : progress_file (self st) = cat ++ lit "_progress.txt").
  { subst st. unfold load_progress.
    match goal with |- context [match ?x with _ => _ end] => destruct x end;
      reflexivity. }
  destruct (fs st !! _); exact E.
Qed.

Lemma init_processed_urls (base cat : pystr) (w : nat) (files : gmap pystr pystr) :
  processed_urls (self (init base cat w files))
  = match files !! (cat ++ lit "_progress.txt") with
    | Some content => list_to_set (List.map strip (file_lines content))
    | None => ∅
    end.
Proof.
  unfold init.
  match goal with |- context [load_progress ?st0] => set (st := load_progress st0) end.
  assert (E : processed_urls (self st)
              = match files !! (cat ++ lit "_progress.txt") with
                | Some content => list_to_set (List.map strip (file_lines content))
                | None => ∅
                end).
  { subst st. unfold load_progress. cbn [fs self progress_file].
    destruct (files !! _); reflexivity. }
  destruct (fs st !! _); exact E.
Qed.

(** The header of the record file is written to another path. *)
Lemma init_fs_progress (base cat : pystr) (w : nat) (files : gmap pystr pystr) :
  fs (init base cat w files) !! (cat ++ lit "_progress.txt")
  = files !! (cat ++ lit "_progress.txt").
Proof.
  unfold init.
  match goal with |- context [load_progress ?st0] => set (st := load_progress st0) end.
  assert (E : fs st = files).
  { subst st. unfold load_progress. cbn [fs self progress_file].
    destruct (files !! _); reflexivity. }
  destruct (fs st !! _) eqn:Ecsv; cbn [fs set_fs]; rewrite E; [reflexivity|].
  unfold write_file. apply lookup_insert_ne.
  intros Heq. apply app_inv_head in Heq. discriminate Heq.
Qed.

Lemma save_progress_progress_file (url : pystr) (st : state) :
  progress_file (self (save_progress url st)) = progress_file (self st).
Proof. unfold save_progress. destruct (decide _); reflexivity. Qed.

(** One [save_progress] keeps the file and the set in step. *)
Lemma save_progress_ledger (url : pystr) (st : state) (ws : list pystr) :
  processed_urls (self st) = list_to_set ws ->
  default [] (fs st !! progress_file (self st))
    = List.concat (List.map (fun u => u ++ [LF]) ws) ->
  exists ws',
    (ws' = ws \/ ws' = ws ++ [url])
    /\ processed_urls (self (save_progress url st)) = list_to_set ws'
    /\ default [] (fs (save_progress url st) !! progress_file (self st))
       = List.concat (List.map (fun u => u ++ [LF]) ws')
    /\ (list_to_set ws' : gset pystr) = list_to_set (ws ++ [url]).
Proof.
  intros Hset Hfile. unfold save_progress.
  destruct (decide (url ∈ processed_urls (self st))) as [Hin|Hnin].
  - exists ws. repeat split; auto.
    rewrite list_to_set_app_L. rewrite Hset in Hin. set_solver.
  - exists (ws ++ [url]). split; [auto|]. cbn [self fs set_fs set_processed_urls processed_urls progress_file].
    split; [|split; [|reflexivity]].
    + rewrite Hset, list_to_set_app_L. set_solver.
    + unfold append_file. rewrite lookup_insert_eq. cbn [default].
      rewrite Hfile, List.map_app, List.concat_app. simpl.
      rewrite app_nil_r. reflexivity.
Qed.

Lemma record_all_ledger (urls : list pystr) :
  forall (st : state) (ws : list pystr),
    Forall clean_url urls -> Forall clean_url ws ->
    processed_urls (self st) = list_to_set ws ->
    default [] (fs st !! progress_file (self st))
      = List.concat (List.map (fun u => u ++ [LF]) ws) ->
    exists ws',
      Forall clean_url ws'
      /\ processed_urls (self (record_all urls st)) = list_to_set ws'
      /\ default [] (fs (record_all urls st) !! progress_file (self st))
         = List.concat (List.map (fun u => u ++ [LF]) ws')
      /\ (list_to_set ws' : gset pystr) = list_to_set (ws ++ urls).
Proof.
  induction urls as [|url urls IH]; intros st ws Hurls Hws Hset Hfile.
  - exists ws. rewrite app_nil_r. auto.
  - inversion Hurls as [|? ? Hurl Hrest]; subst. cbn [record_all fold_left].
    destruct (save_progress_ledger url st ws Hset Hfile)
      as (ws1 & Hws1 & Hset1 & Hfile1 & Heq1).
    destruct (IH (save_progress url st) ws1) as (ws' & Hok & Hset' & Hfile' & Heq');
      auto.
    + destruct Hws1 as [->| ->]; [assumption|].
      apply Forall_app; auto.
    + rewrite save_progress_progress_file. exact Hfile1.
    + exists ws'. rewrite save_progress_progress_file in Hfile'.
      repeat split; auto.
      rewrite Heq', !list_to_set_app_L.
      rewrite list_to_set_app_L in Heq1. rewrite Heq1.
      rewrite list_to_set_cons. set_solver.
Qed.

Lemma ledger_text_nil (ws : list pystr) :
  List.concat (List.map (fun u => u ++ [LF]) ws) = [] -> ws = [].
Proof.
  destruct ws as [|u ws]; [reflexivity|]. simpl.
  destruct u; discriminate.
Qed.

(** C5. Starting a run on an absent or empty ledger file, recording the
    URLs of a set [U] (in any order, repeats allowed) leaves [U] in memory,
    and a scraper constructed afterwards on the files of that run loads
    exactly [U], provided no URL of [U] holds a line break (line feed or
    carriage return) and each is equal to its stripped form. *)
Theorem ledger_round_trip
    (base cat : pystr) (w w' : nat) (files : gmap pystr pystr)
    (U : gset pystr) (urls : list pystr) :
  default [] (files !! (cat ++ lit "_progress.txt")) = [] ->
  list_to_set urls = U ->
  Forall clean_url urls ->
  let st := record_all urls (init base cat w files) in
  processed_urls (self st) = U
  /\ processed_urls (self (init base cat w' (fs st))) = U.
Proof.
  intros Hempty HS Hclean st.
  set (st0 := init base cat w files) in *.
  assert (Hpf : progress_file (self st0) = cat ++ lit "_progress.txt")
    by apply init_progress_file.
  destruct (record_all_ledger urls st0 [] Hclean) as (ws & Hok & Hset & Hfile & Heq).
  - constructor.
  - unfold st0. rewrite init_processed_urls.
    destruct (files !! _) as [c|]; [|reflexivity].
    simpl in Hempty. subst c. reflexivity.
  - rewrite Hpf. unfold st0. rewrite init_fs_progress. exact Hempty.
  - fold st in Hset, Hfile. simpl in Heq. rewrite HS in Heq.
    split; [rewrite Hset; exact Heq|].
    rewrite init_processed_urls. rewrite Hpf in Hfile.
    destruct (fs st !! _) as [c|]; simpl in Hfile.
    + subst c. rewrite file_lines_ledger, strip_ledger_lines by exact Hok.
      exact Heq.
    + symmetry in Hfile. apply ledger_text_nil in Hfile. subst ws.
      rewrite <- Heq. reflexivity.
Qed.

Lemma ledger_round_trip_witness :
  let urls := [lit "https://www.avito.ma/ordinateurs/a";
               lit "https://www.avito.ma/ordinateurs/b";
               lit "https://www.avito.ma/ordinateurs/a"] in
  let st := record_all urls Samples.fresh in
  processed_urls (self st) = list_to_set urls
  /\ processed_urls (self (init Samples.category_root (lit "desktop") 3 (fs st)))
     = list_to_set urls.
Proof.
  intros urls.
  apply (ledger_round_trip Samples.category_root (lit "desktop")
                           default_max_workers 3 ∅ (list_to_set urls) urls).
  - reflexivity.
  - reflexivity.
  - repeat constructor;
      try (apply (bool_decide_unpack _); vm_compute; exact I).
Defined.

End LedgerFacts.

(* --------------------------------------------------------------------- *)
(** ** Fetching                                                           *)
(* --------------------------------------------------------------------- *)

Section FetchFacts.

Import Avito.

(** [make_request] is the attempt loop on the session the pool hands out. *)
Lemma make_request_loop net (url : pystr) (retries : nat) (st : state)
      (s : Sessions.session) (m : Sessions.RotatingSessionManager) :
  Sessions.get_session (session_manager (self st)) = Some (s, m) ->
  make_request net url retries st
  = Done (fst (request_loop net s url retries 0 retries (set_session_manager m st)))
         (snd (request_loop net s url retries 0 retries (set_session_manager m st))).
Proof.
  intros H. unfold make_request. rewrite H.
  destruct (request_loop _ _ _ _ _ _ _). reflexivity.
Qed.

(** C2 (as amended). At every attempt of [make_request] that gets a
    response, status code 200 records a success on the throttle and
    returns the response at once, no further attempt being made; every
    other status code that is not 429, the other 2xx codes included,
    records an error and goes on with the next attempt. *)
Theorem fetch_success_is_status_200
    net (s : Sessions.session) (url : pystr) (retries attempt remaining : nat)
    (st : state) (r : response) :
  net (trace (wait st)) s url = Responded r ->
  let st2 := log (EvGet s url) (wait st) in
  (status_code r = 200%Z ->
     request_loop net s url retries attempt (S remaining) st
     = (Some r, on_rate_limiter Throttle.record_success st2))
  /\ (status_code r <> 200%Z -> status_code r <> 429%Z ->
        request_loop net s url retries attempt (S remaining) st
        = request_loop net s url retries (S attempt) remaining
            (on_rate_limiter (Throttle.record_error (Some (status_code r))) st2)).
Proof.
  intros Hnet st2. subst st2. cbn [request_loop]. rewrite Hnet. split.
  - intros ->. reflexivity.
  - intros H200 H429.
    destruct (Z.eqb_spec (status_code r) 200); [contradiction|].
    destruct (Z.eqb_spec (status_code r) 429); [contradiction|].
    reflexivity.
Qed.

Lemma fetch_success_is_status_200_witness :
  request_loop (Samples.net_status 200) Samples.first_session
               Samples.category_root 3 0 3 Samples.fresh
  = (Some (mkResponse 200 Html.empty_soup),
     on_rate_limiter Throttle.record_success
       (log (EvGet Samples.first_session Samples.category_root)
            (wait Samples.fresh))).
Proof.
  destruct (fetch_success_is_status_200
              (Samples.net_status 200) Samples.first_session
              Samples.category_root 3 0 2 Samples.fresh
              (mkResponse 200 Html.empty_soup) eq_refl) as [H _].
  apply H. reflexivity.
Defined.

(** C2, as stated, fails: a response with status 201 is not taken as a
    success. All three attempts are made, each records an error, and no
    content is returned. *)
Lemma fetch_status_201_not_success :
  ~ (forall net (s : Sessions.session) (url : pystr)
            (retries attempt remaining : nat) (st : state) (r : response),
        net (trace (wait st)) s url = Responded r ->
        (200 <= status_code r < 300)%Z ->
        request_loop net s url retries attempt (S remaining) st
        = (Some r, on_rate_limiter Throttle.record_success
                     (log (EvGet s url) (wait st)))).
Proof.
  intros H.
  specialize (H (Samples.net_status 201) Samples.first_session
                Samples.category_root 3 0 2 Samples.fresh
                (mkResponse 201 Html.empty_soup) eq_refl).
  assert (Hr : (200 <= 201 < 300)%Z) by lia.
  apply H in Hr. apply (f_equal fst) in Hr.
  vm_compute in Hr. discriminate Hr.
Qed.

(** What the three attempts on a site answering 201 leave behind. *)
Example fetch_status_201_run :
  let run := request_loop (Samples.net_status 201) Samples.first_session
                          Samples.category_root 3 0 3 Samples.fresh in
  fst run = None
  /\ length (Samples.requested (trace (snd run))) = 3
  /\ Throttle.error_count (rate_limiter (self (snd run))) = 3
  /\ Throttle.success_count (rate_limiter (self (snd run))) = 0.
Proof. vm_compute. auto. Qed.

End FetchFacts.

(* --------------------------------------------------------------------- *)
(** ** Link discovery                                                     *)
(* --------------------------------------------------------------------- *)

Section FrontierFacts.

Import Avito.

(** C6. When the request for a page returns a response: on a page after
    the first with fewer than 5 new links the loop stops there, in the
    state that request left (nothing is requested afterwards) and with the
    links collected before (none of that page is added); on a first page
    where no selector finds an item, collection returns the empty list,
    and [scrape_optimized], having no saved link list, exits on it. *)
Theorem frontier_tail_termination
    net (fuel page total : nat) (collected : list pystr)
    (st st1 : state) (r : response) :
  make_request net (page_url (base_url (self st)) page) 3 st = Done (Some r) st1 ->
  (1 < page ->
   length (new_links (select_items (Avito.body r) link_selectors)
                     (processed_urls (self st1))) < 5 ->
   collect_loop net (S fuel) page total collected st = Done collected st1)
  /\ (page = 1 ->
      select_items (Avito.body r) link_selectors = [] ->
      let st2 := set_fs (write_file (link_file (self st1)) [] (fs st1)) st1 in
      collect_links_optimized net (S fuel) st = Done [] st2
      /\ (fs st !! link_file (self st) = None ->
          discover net (S fuel) st = Done FailedToCollect st2)).
Proof.
  intros Hreq. split.
  - intros Hpage Hfew. cbn [collect_loop]. rewrite Hreq. cbn [bind].
    destruct (select_items (Avito.body r) link_selectors) as [|item items];
      [reflexivity|].
    destruct (Nat.ltb_spec (length (new_links (item :: items)
                                              (processed_urls (self st1)))) 5);
      [|lia].
    destruct (Nat.ltb_spec 1 page); [|lia]. reflexivity.
  - intros -> Hnone st2.
    assert (Hc : collect_links_optimized net (S fuel) st = Done [] st2).
    { unfold collect_links_optimized. cbn [collect_loop].
      rewrite Hreq. cbn [bind]. rewrite Hnone. reflexivity. }
    split; [exact Hc|].
    intros Hfile. unfold discover. rewrite Hfile, Hc. reflexivity.
Qed.

(** A failed request ends the loop in the same way, on any page. *)
Lemma collect_loop_fetch_failed
    net (fuel page total : nat) (collected : list pystr) (st st1 : state) :
  make_request net (page_url (base_url (self st)) page) 3 st = Done None st1 ->
  collect_loop net (S fuel) page total collected st = Done collected st1.
Proof. intros Hreq. cbn [collect_loop]. rewrite Hreq. reflexivity. Qed.

Lemma frontier_tail_termination_witness :
  let page2 := make_request Samples.net_category
                 (page_url Samples.category_root 2) 3 Samples.fresh in
  let page1 := make_request (Samples.net_status 200)
                 (page_url Samples.category_root 1) 3 Samples.fresh in
  let st1 := Samples.final_state Samples.fresh page1 in
  let st2 := set_fs (write_file (link_file (self st1)) [] (fs st1)) st1 in
  collect_loop Samples.net_category 1 2 6 [lit "seen"] Samples.fresh
  = Done [lit "seen"] (Samples.final_state Samples.fresh page2)
  /\ collect_links_optimized (Samples.net_status 200) 1 Samples.fresh = Done [] st2
  /\ discover (Samples.net_status 200) 1 Samples.fresh = Done FailedToCollect st2.
Proof.
  intros page2 page1 st1 st2. split.
  - destruct (frontier_tail_termination
                Samples.net_category 0 2 6 [lit "seen"] Samples.fresh
                (Samples.final_state Samples.fresh page2)
                (mkResponse 200 (Samples.listing 2 4))) as [H _].
    + reflexivity.
    + apply H; [lia | vm_compute; lia].
  - destruct (frontier_tail_termination
                (Samples.net_status 200) 0 1 0 [] Samples.fresh st1
                (mkResponse 200 Html.empty_soup)) as [_ H].
    + reflexivity.
    + destruct (H eq_refl eq_refl) as [Hc Hd]. split; [exact Hc|].
      apply Hd. vm_compute. reflexivity.
Defined.

(** A whole run on a category whose second page holds 4 new links: the 6
    links of the first page are returned, and the third page is never
    requested. *)
Example frontier_run_stops_on_page_2 :
  let run := collect_links_optimized Samples.net_category 10 Samples.fresh in
  option_map (@length pystr) (Samples.value run) = Some 6
  /\ Samples.requested (trace (Samples.final_state Samples.fresh run))
     = [Samples.category_root; Samples.category_root ++ lit "?o=2"].
Proof. vm_compute. auto. Qed.

End FrontierFacts.

(* --------------------------------------------------------------------- *)
(** ** Extraction                                                         *)
(* --------------------------------------------------------------------- *)

Section ExtractionFacts.

Import Html Avito.

Lemma startswith_prefix (s p : pystr) :
  startswith s p = true <-> exists rest, s = p ++ rest.
Proof.
  revert s. induction p as [|d p IH]; intros s.
  - split; [eauto | intros _; destruct s; reflexivity].
  - destruct s as [|c s]; simpl.
    + split; [discriminate | intros [rest H]; discriminate H].
    + rewrite andb_true_iff, N.eqb_eq, IH. split.
      * intros [-> [rest ->]]. eauto.
      * intros [rest H]. injection H as -> ->. eauto.
Qed.

(** [p in s] holds exactly when [p] is a slice of [s]. *)
Lemma contains_slice (s p : pystr) :
  contains s p = true <-> exists before after, s = before ++ p ++ after.
Proof.
  induction s as [|c s IH].
  - cbn [contains]. rewrite orb_false_r, startswith_prefix. split.
    + intros [rest H]. exists [], rest. exact H.
    + intros (before & rest & H). symmetry in H.
      apply app_eq_nil in H as [-> H]. eauto.
  - cbn [contains]. rewrite orb_true_iff, startswith_prefix, IH. split.
    + intros [[rest H]|(before & rest & H)].
      * exists [], rest. exact H.
      * exists (c :: before), rest. rewrite H. reflexivity.
    + intros (before & rest & H). destruct before as [|b before].
      * left. eauto.
      * right. injection H as -> H. eauto.
Qed.

Variable upper : pystr -> pystr.
Variable re_sub : pystr -> pystr -> pystr -> bool -> pystr.

Lemma accepts_iff (t : pystr) :
  accepts upper t = true <-> 50 < length t /\ has_marker upper t = true.
Proof. unfold accepts. rewrite andb_true_iff, Nat.ltb_lt. reflexivity. Qed.

Lemma first_accepted_head (elements : list element) :
  first_accepted upper elements
  = List.head (List.filter (accepts upper) (List.map get_text_strip elements)).
Proof.
  induction elements as [|e elements IH]; [reflexivity|]. simpl.
  destruct (accepts upper (get_text_strip e)); [reflexivity | exact IH].
Qed.

(** The candidate texts of strategy 1, in the order they are tried. *)
Lemma structured_phase_head (doc : soup) (selectors : list pystr) :
  structured_phase upper doc selectors
  = List.head (List.filter (accepts upper)
       (flat_map (fun selector => List.map get_text_strip (select doc selector))
                 selectors)).
Proof.
  induction selectors as [|selector rest IH]; [reflexivity|].
  cbn [structured_phase flat_map]. rewrite List.filter_app, first_accepted_head, IH.
  destruct (List.filter (accepts upper)
              (List.map get_text_strip (select doc selector))); reflexivity.
Qed.

(** C7 (as amended). Strategy 1 tries the elements of the selectors in
    order and accepts the first whose text has more than 50 characters
    (51 at least) and shows an emoji of the list or, upper-cased, a
    specification keyword; whenever it accepts an element, strategy 2 is
    not run and the description is the clean-up of that text. *)
Theorem structured_phase_first_match (doc : soup) :
  structured_phase upper doc desc_selectors
  = List.head (List.filter (fun t => (51 <=? length t) && has_marker upper t)
       (flat_map (fun selector => List.map get_text_strip (select doc selector))
                 desc_selectors))
  /\ (forall d,
        structured_phase upper doc desc_selectors = Some d ->
        find_description upper doc = (Some d, false)
        /\ extract_description_improved upper re_sub doc
           = (if truthy (clean_description re_sub d)
              then clean_description re_sub d else NA)).
Proof.
  split.
  - rewrite structured_phase_head. reflexivity.
  - intros d Hd. unfold extract_description_improved, find_description.
    rewrite Hd. split; reflexivity.
Qed.

End ExtractionFacts.

Section ExtractionSamples.

Import Html Avito.

Lemma structured_phase_first_match_witness :
  find_description Samples.ascii_upper (Samples.description_page Samples.fifty_one)
  = (Some Samples.fifty_one, false).
Proof.
  destruct (structured_phase_first_match
              Samples.ascii_upper Samples.no_sub
              (Samples.description_page Samples.fifty_one)) as [_ H].
  destruct (H Samples.fifty_one) as [Hfind _]; [reflexivity | exact Hfind].
Defined.

(** C7, as stated, fails: an element whose text is exactly 50 characters
    long and shows an emoji of the list is the first candidate with at
    least 50 characters and a marker, yet strategy 1 does not accept it. *)
Lemma structured_phase_rejects_fifty_characters :
  ~ (forall (upper : pystr -> pystr) (doc : soup),
        structured_phase upper doc desc_selectors
        = List.head (List.filter (fun t => (50 <=? length t) && has_marker upper t)
             (flat_map (fun selector => List.map get_text_strip (select doc selector))
                       desc_selectors))).
Proof.
  intros H.
  specialize (H Samples.ascii_upper (Samples.description_page Samples.fifty)).
  vm_compute in H. discriminate H.
Qed.

(** The same page through the whole description search: strategy 1 finds
    nothing and strategy 2 is run. *)
Example fifty_characters_fall_through :
  length Samples.fifty = 50
  /\ has_marker Samples.ascii_upper Samples.fifty = true
  /\ find_description Samples.ascii_upper (Samples.description_page Samples.fifty)
     = (None, true).
Proof. vm_compute. auto. Qed.

End ExtractionSamples.

(* --------------------------------------------------------------------- *)
(** ** Placeholders of missing fields                                     *)
(* --------------------------------------------------------------------- *)

Section SentinelFacts.

Import Html Avito.

Lemma extract_price_missing (doc : soup) (selectors : list pystr) :
  (forall selector, In selector selectors -> select_one doc selector = None) ->
  extract_price doc selectors = NA.
Proof.
  induction selectors as [|selector rest IH]; intros H; [reflexivity|].
  simpl. rewrite (H selector) by (left; reflexivity).
  apply IH. intros s Hs. apply H. right. exact Hs.
Qed.

(** C8 (as amended). Every record has all seven fields. A title, price,
    description or post date that cannot be read from the page is the
    placeholder ["N/A"]; a condition whose element is missing is the
    different placeholder ["Not specified"]. In the Jumia scraper a
    missing title, price or description is ["N/A"] and the condition is
    always ["New"]. *)
Theorem missing_fields_placeholders
    (upper : pystr -> pystr) (re_sub : pystr -> pystr -> pystr -> bool -> pystr)
    (doc : soup) (url date scraped_at : pystr) :
  let p := extract_fields upper re_sub doc url scraped_at in
  let q := Jumia.product_data doc url date scraped_at in
  (find doc (lit "h1") None = None -> Title p = NA)
  /\ ((forall selector, In selector price_selectors ->
                        select_one doc selector = None) -> Price p = NA)
  /\ (fst (find_description upper doc) = None -> Description p = NA)
  /\ (select_one doc (lit "span.iKguVF time") = None -> Post_Date p = NA)
  /\ (forall tag, select_one doc (lit "span.iKguVF time") = Some tag ->
                  get (lit "datetime") (attrs tag) = None -> Post_Date p = NA)
  /\ (select_one doc (lit "div.kuofIS span.fjZBup") = None ->
      Condition p = NOT_SPECIFIED)
  /\ NOT_SPECIFIED <> NA
  /\ (find doc (lit "h1") (Some (lit "-fs20 -pts -pbxs")) = None -> Title q = NA)
  /\ (find doc (lit "span") (Some (lit "-b -ubpt -tal -fs24 -prxs")) = None ->
      Price q = NA)
  /\ (find doc (lit "div") (Some (lit "markup -pam")) = None -> Description q = NA)
  /\ Condition q = lit "New".
Proof.
  intros p q. subst p q. cbn [extract_fields Jumia.product_data Title Price
    Condition Description Post_Date].
  split; [|split; [|split; [|split; [|split; [|split; [|split; [|split;
    [|split; [|split]]]]]]]]].
  - intros H. unfold extract_title. rewrite H. reflexivity.
  - apply extract_price_missing.
  - intros H. unfold extract_description_improved. rewrite H. reflexivity.
  - intros H. unfold extract_post_date. rewrite H. reflexivity.
  - intros tag H1 H2. unfold extract_post_date. rewrite H1, H2. reflexivity.
  - intros H. unfold extract_condition. rewrite H. reflexivity.
  - discriminate.
  - intros H. rewrite H. reflexivity.
  - intros H. rewrite H. reflexivity.
  - intros H. unfold Jumia.extract_description. rewrite H. reflexivity.
  - reflexivity.
Qed.

Lemma missing_fields_placeholders_witness :
  let p := extract_fields Samples.ascii_upper Samples.no_sub empty_soup
                          Samples.category_root (lit "2025-01-01 00:00:00") in
  let q := Jumia.product_data empty_soup Samples.category_root
                              (lit "2025-01-01") (lit "2025-01-01 00:00:00") in
  Title p = NA /\ Price p = NA /\ Description p = NA /\ Post_Date p = NA
  /\ Condition p = NOT_SPECIFIED
  /\ Title q = NA /\ Price q = NA /\ Description q = NA.
Proof.
  destruct (missing_fields_placeholders
              Samples.ascii_upper Samples.no_sub empty_soup
              Samples.category_root (lit "2025-01-01")
              (lit "2025-01-01 00:00:00"))
    as (Ht & Hp & Hd & Hdate & _ & Hc & _ & Hjt & Hjp & Hjd & _).
  split; [|split; [|split; [|split; [|split; [|split; [|split]]]]]].
  - apply Ht. reflexivity.
  - apply Hp. reflexivity.
  - apply Hd. reflexivity.
  - apply Hdate. reflexivity.
  - apply Hc. reflexivity.
  - apply Hjt. reflexivity.
  - apply Hjp. reflexivity.
  - apply Hjd. reflexivity.
Defined.

(** C8, as stated, fails: on a page where the condition element is
    missing, the condition is not the placeholder of the other fields. *)
Lemma condition_placeholder_differs :
  ~ (forall (upper : pystr -> pystr)
            (re_sub : pystr -> pystr -> pystr -> bool -> pystr)
            (doc : soup) (url scraped_at : pystr),
        select_one doc (lit "div.kuofIS span.fjZBup") = None ->
        Condition (extract_fields upper re_sub doc url scraped_at) = NA).
Proof.
  intros H.
  specialize (H Samples.ascii_upper Samples.no_sub empty_soup [] [] eq_refl).
  vm_compute in H. discriminate H.
Qed.

End SentinelFacts.

(* --------------------------------------------------------------------- *)
(** ** The header of the record file                                      *)
(* --------------------------------------------------------------------- *)

Section SinkFacts.

Import Avito.

(** What the constructor leaves in the record file. *)
Lemma init_record_file (base cat : pystr) (w : nat) (files : gmap pystr pystr) :
  fs (init base cat w files) !! (cat ++ lit "_products_from_avito.csv")
  = match files !! (cat ++ lit "_products_from_avito.csv") with
    | Some content => Some content
    | None => Some (csv_header false)
    end.
Proof.
  unfold init.
  match goal with |- context [load_progress ?st0] => set (st := load_progress st0) end.
  assert (E : fs st = files).
  { subst st. unfold load_progress. cbn [fs self progress_file].
    destruct (files !! _); reflexivity. }
  rewrite E.
  destruct (files !! (cat ++ lit "_products_from_avito.csv")) as [content|] eqn:Ecsv.
  - rewrite E. exact Ecsv.
  - cbn [fs set_fs]. unfold write_file. apply lookup_insert_eq.
Qed.

Lemma readline_truthy (content : pystr) :
  truthy (Jumia.readline content) = truthy content.
Proof.
  destruct content as [|c rest]; [reflexivity|]. simpl.
  destruct (c =? LF)%N; [reflexivity|].
  destruct (c =? CR)%N; [|reflexivity].
  destruct rest as [|d rest]; [reflexivity|].
  destruct (d =? LF)%N; reflexivity.
Qed.

(** What [write_header_if_needed] leaves in the file. *)
Lemma write_header_if_needed_file (path : pystr) (files : gmap pystr pystr) :
  Jumia.write_header_if_needed path files !! path
  = match files !! path with
    | Some (c :: rest) => Some (c :: rest)
    | _ => Some (csv_header true)
    end.
Proof.
  unfold Jumia.write_header_if_needed.
  destruct (files !! path) as [content|] eqn:E.
  - rewrite readline_truthy. destruct content as [|c rest]; simpl.
    + unfold write_file. apply lookup_insert_eq.
    + exact E.
  - unfold write_file. apply lookup_insert_eq.
Qed.

(** C9, on the code. [write_header_if_needed] writes the header exactly
    when the file is absent or empty. The constructor of the Avito scraper
    writes it when the file is absent only: a record file that exists and
    is empty is left empty, without a header. *)
Theorem sink_header_skipped_on_empty_file
    (base cat : pystr) (w : nat) (files : gmap pystr pystr) :
  files !! (cat ++ lit "_products_from_avito.csv") = Some [] ->
  fs (init base cat w files) !! (cat ++ lit "_products_from_avito.csv") = Some []
  /\ Jumia.write_header_if_needed (cat ++ lit "_products_from_avito.csv") files
       !! (cat ++ lit "_products_from_avito.csv")
     = Some (csv_header true).
Proof.
  intros H. rewrite init_record_file, write_header_if_needed_file.
  unfold pystr in *. rewrite H. auto.
Qed.

Lemma sink_header_skipped_on_empty_file_witness :
  let csv := lit "desktop_products_from_avito.csv" in
  let files : gmap pystr pystr := {[ csv := [] ]} in
  fs (init Samples.category_root (lit "desktop") 7 files) !! csv = Some []
  /\ Jumia.write_header_if_needed csv files !! csv = Some (csv_header true).
Proof.
  intros csv files.
  apply (sink_header_skipped_on_empty_file
           Samples.category_root (lit "desktop") 7 files).
  apply lookup_singleton_eq.
Defined.

End SinkFacts.

(* ===================================================================== *)
(** * Further properties                                                  *)
(* ===================================================================== *)

(* --------------------------------------------------------------------- *)
(** ** The throttle: counters and direction of change                     *)
(* --------------------------------------------------------------------- *)

Section ThrottleMore.

Import Throttle.
Local Open Scope Q_scope.

Lemma step_counters (r : SmartRateLimiter) (c : call) :
  (success_count (step r c) < 15)%nat
  /\ (success_count (step r c) = 0%nat \/ error_count (step r c) = 0%nat).
Proof.
  destruct c as [|sc]; simpl; unfold record_success, record_error.
  - destruct (Nat.leb_spec 15 (S (success_count r))); simpl; split; auto; lia.
  - destruct (is_429 sc); [|destruct (5 <=? S (error_count r))%nat]; simpl;
      split; auto; lia.
Qed.

(** X1. Along every run from a new limiter the success counter stays
    below 15, and the two counters are never both positive: each call
    clears the counter of the other kind. *)
Theorem throttle_counters_exclusive (base max : Q) (calls : list call) :
  let r := run calls (init base max) in
  (success_count r < 15)%nat
  /\ (success_count r = 0%nat \/ error_count r = 0%nat).
Proof.
  intros r. subst r.
  destruct calls as [|c calls] using rev_ind.
  - simpl. split; [lia | auto].
  - unfold run. rewrite fold_left_app. simpl. apply step_counters.
Qed.

(** X2. In a state within bounds with a non-negative floor, a success
    never raises the delay and an error, whatever its status code, never
    lowers it. *)
Theorem throttle_feedback_direction (r : SmartRateLimiter) (sc : option Z) :
  0 <= base_delay r -> in_bounds r ->
  current_delay (record_success r) <= current_delay r
  /\ current_delay r <= current_delay (record_error sc r).
Proof.
  intros H0 [Hlo Hhi]. unfold record_success, record_error. split.
  - destruct (15 <=? S (success_count r))%nat; simpl; [|apply Qle_refl].
    rewrite py_max_Qmax. apply Q.max_lub; lra.
  - destruct (is_429 sc); [|destruct (5 <=? S (error_count r))%nat]; simpl;
      try apply Qle_refl; rewrite py_min_Qmin; apply Q.min_glb; lra.
Qed.

Lemma throttle_feedback_direction_witness :
  let r := run (repeat Success 14) (init (8 # 10) 6) in
  current_delay (record_success r) <= current_delay r
  /\ current_delay r <= current_delay (record_error (Some 429%Z) r).
Proof.
  apply throttle_feedback_direction.
  - vm_compute. discriminate.
  - split; vm_compute; discriminate.
Defined.

(** One error that is not a rate-limit signal, below the threshold. *)
Lemma record_error_below (sc : option Z) (r : SmartRateLimiter) :
  is_429 sc = false -> (S (error_count r) < 5)%nat ->
  record_error sc r
  = mkLimiter (base_delay r) (max_delay r) (current_delay r) 0 (S (error_count r)).
Proof.
  intros Hsc Hlt. unfold record_error. rewrite Hsc.
  destruct (Nat.leb_spec 5 (S (error_count r))); [lia | reflexivity].
Qed.

(** One error that is not a rate-limit signal, at or over the threshold. *)
Lemma record_error_grow (sc : option Z) (r : SmartRateLimiter) :
  is_429 sc = false -> (4 <= error_count r)%nat ->
  record_error sc r
  = mkLimiter (base_delay r) (max_delay r)
              (py_min (max_delay r) (current_delay r * (12 # 10)))
              0 (S (error_count r)).
Proof.
  intros Hsc Hge. unfold record_error. rewrite Hsc.
  destruct (Nat.leb_spec 5 (S (error_count r))); [reflexivity | lia].
Qed.

Lemma run_errors_below (scs : list (option Z)) (r : SmartRateLimiter) :
  Forall (fun sc => is_429 sc = false) scs ->
  (error_count r + length scs < 5)%nat ->
  base_delay (run (List.map Error scs) r) = base_delay r
  /\ max_delay (run (List.map Error scs) r) = max_delay r
  /\ current_delay (run (List.map Error scs) r) = current_delay r
  /\ error_count (run (List.map Error scs) r) = (error_count r + length scs)%nat.
Proof.
  revert r. induction scs as [|sc scs IH]; intros r Hall Hlt; simpl in *.
  - rewrite Nat.add_0_r. auto.
  - inversion Hall as [|? ? Hsc Hrest]; subst.
    rewrite (record_error_below sc r Hsc) by lia.
    destruct (IH (mkLimiter (base_delay r) (max_delay r) (current_delay r) 0
                            (S (error_count r))) Hrest) as (Eb & Em & Ec & Ee);
      [simpl; lia|].
    unfold run in *. simpl in *. rewrite Eb, Em, Ec, Ee. repeat split; lia.
Qed.

Lemma run_errors_grow (scs : list (option Z)) (r : SmartRateLimiter) :
  Forall (fun sc => is_429 sc = false) scs ->
  (4 <= error_count r)%nat ->
  current_delay (run (List.map Error scs) r)
  = Nat.iter (length scs)
             (fun d => py_min (max_delay r) (d * (12 # 10))) (current_delay r).
Proof.
  revert r. induction scs as [|sc scs IH]; intros r Hall Hge; [reflexivity|].
  inversion Hall as [|? ? Hsc Hrest]; subst. cbn [List.map run fold_left step length].
  rewrite (record_error_grow sc r Hsc Hge).
  fold (run (List.map Error scs)
            (mkLimiter (base_delay r) (max_delay r)
                       (py_min (max_delay r) (current_delay r * (12 # 10)))
                       0 (S (error_count r)))).
  rewrite IH by (simpl; auto; lia). simpl max_delay. simpl current_delay.
  rewrite Nat.iter_succ_r. reflexivity.
Qed.

(** X3. Errors that are not rate-limit signals leave the delay alone
    while fewer than five have come in a row; from the fifth on, every
    further error of the streak scales the delay by 1.2 (clamped at the
    ceiling), the error counter not being reset by the growth. *)
Theorem generic_errors_compound_from_fifth
    (r : SmartRateLimiter) (first later : list (option Z)) :
  Forall (fun sc => is_429 sc = false) (first ++ later) ->
  error_count r = 0%nat -> length first = 4%nat ->
  current_delay (run (List.map Error first) r) = current_delay r
  /\ current_delay (run (List.map Error (first ++ later)) r)
     = Nat.iter (length later)
                (fun d => py_min (max_delay r) (d * (12 # 10))) (current_delay r).
Proof.
  intros Hall H0 H4. apply Forall_app in Hall as [Hfirst Hlater].
  destruct (run_errors_below first r Hfirst) as (Eb & Em & Ec & Ee); [lia|].
  split; [exact Ec|].
  rewrite List.map_app. unfold run. rewrite fold_left_app.
  fold (run (List.map Error first) r).
  fold (run (List.map Error later) (run (List.map Error first) r)).
  rewrite run_errors_grow by (auto; lia).
  rewrite Em, Ec. reflexivity.
Qed.

Lemma generic_errors_compound_from_fifth_witness :
  let r := init (8 # 10) 6 in
  let first := [None; Some 500%Z; Some 404%Z; None] in
  let later := [Some 503%Z; None] in
  current_delay (run (List.map Error first) r) = current_delay r
  /\ current_delay (run (List.map Error (first ++ later)) r)
     = Nat.iter 2 (fun d => py_min (max_delay r) (d * (12 # 10))) (current_delay r).
Proof.
  intros r first later.
  apply (generic_errors_compound_from_fifth r first later).
  - repeat constructor.
  - reflexivity.
  - reflexivity.
Defined.

End ThrottleMore.

(* --------------------------------------------------------------------- *)
(** ** The identity pool: the cursor                                      *)
(* --------------------------------------------------------------------- *)

Section SessionMore.

Import Sessions.

Lemma advance_from (n k c : nat) :
  c < n ->
  advance k (mkManager (sessions (init n)) c)
  = Some (mkManager (sessions (init n)) ((c + k) mod n)).
Proof.
  revert c. induction k as [|k IH]; intros c Hc.
  - simpl. rewrite Nat.add_0_r, Nat.mod_small by exact Hc. reflexivity.
  - cbn [advance]. unfold get_session. cbn [sessions current_session].
    change (List.map make_session (seq 0 n)) with (sessions (init n)).
    rewrite (sessions_init_lookup n c Hc), sessions_init_length.
    rewrite IH by (apply Nat.mod_upper_bound; lia).
    rewrite Nat.Div0.add_mod_idemp_l. do 3 f_equal. lia.
Qed.

(** X4. In a non-empty pool [get_session] never fails: after [k] calls
    the cursor is [k mod n], so it stays inside the pool and the pool is
    back in its initial state after every [n] calls. *)
Theorem pool_cursor_cycles (n k : nat) :
  0 < n ->
  advance k (init n) = Some (mkManager (sessions (init n)) (k mod n))
  /\ advance n (init n) = Some (init n).
Proof.
  intros Hn.
  assert (H : forall j, advance j (init n)
                        = Some (mkManager (sessions (init n)) (j mod n))).
  { intros j. unfold init at 1.
    change (List.map make_session (seq 0 n)) with (sessions (init n)).
    rewrite (advance_from n j 0 Hn). reflexivity. }
  split; [apply H|].
  rewrite H, Nat.Div0.mod_same. reflexivity.
Qed.

Lemma pool_cursor_cycles_witness :
  advance 9 (init 7) = Some (mkManager (sessions (init 7)) (9 mod 7))
  /\ advance 7 (init 7) = Some (init 7).
Proof. apply pool_cursor_cycles. lia. Defined.

End SessionMore.

(* --------------------------------------------------------------------- *)
(** ** Fetching: attempts, effects and what is left alone                 *)
(* --------------------------------------------------------------------- *)

Section FetchMore.

Import Avito.

Variable net : list event -> Sessions.session -> pystr -> outcome.

Lemma gets_app (a b : list event) : gets (a ++ b) = gets a ++ gets b.
Proof.
  induction a as [|e a IH]; [reflexivity|].
  destruct e; simpl; rewrite IH; reflexivity.
Qed.

Lemma sleeps_app (a b : list event) : sleeps (a ++ b) = sleeps a ++ sleeps b.
Proof.
  induction a as [|e a IH]; [reflexivity|].
  destruct e; simpl; rewrite IH; reflexivity.
Qed.

(** X5. Whatever the site does, [make_request]'s attempt loop sends at
    most [remaining] requests, all with the given session to the given
    URL; a response it returns has status 200; it returns nothing only
    after using every attempt. *)
Theorem request_loop_attempts
    (s : Sessions.session) (url : pystr) (retries attempt remaining : nat)
    (st : state) :
  let out := request_loop net s url retries attempt remaining st in
  exists k,
    k <= remaining
    /\ gets (trace (snd out)) = gets (trace st) ++ repeat (s, url) k
    /\ match fst out with
       | Some r => status_code r = 200%Z /\ 1 <= k
       | None => k = remaining
       end.
Proof.
  revert attempt st. induction remaining as [|remaining IH]; intros attempt st.
  - exists 0. simpl. rewrite app_nil_r. auto.
  - cbn [request_loop].
    assert (Hg : forall st', trace st' = trace (log (EvGet s url) (wait st)) ->
                 gets (trace st') = gets (trace st) ++ [(s, url)]).
    { intros st' ->. unfold log, wait, log. cbn [trace].
      rewrite !gets_app. simpl. rewrite app_nil_r. reflexivity. }
    assert (Hrec : forall st',
               gets (trace st') = gets (trace st) ++ [(s, url)] ->
               let out := request_loop net s url retries (S attempt) remaining st' in
               exists k,
                 k <= S remaining
                 /\ gets (trace (snd out)) = gets (trace st) ++ repeat (s, url) k
                 /\ match fst out with
                    | Some r => status_code r = 200%Z /\ 1 <= k
                    | None => k = S remaining
                    end).
    { intros st' Hst' out. destruct (IH (S attempt) st') as (k & Hk & Hgets & Hres).
      fold out in Hgets, Hres. exists (S k). split; [lia|]. split.
      - rewrite Hgets, Hst', <- app_assoc. reflexivity.
      - destruct (fst out); [destruct Hres; split; [assumption | lia] | lia]. }
    destruct (net (trace (wait st)) s url) as [r|].
    + destruct (Z.eqb_spec (status_code r) 200) as [E200|N200].
      * exists 1. cbn [fst snd]. split; [lia|]. split; [|auto].
        apply Hg. reflexivity.
      * destruct (status_code r =? 429)%Z; apply Hrec.
        -- unfold log at 1. cbn [trace]. rewrite gets_app.
           change (trace (on_rate_limiter _ ?x)) with (trace x).
           rewrite (Hg _ eq_refl). simpl. rewrite app_nil_r. reflexivity.
        -- apply Hg. reflexivity.
    + apply Hrec.
      destruct (attempt <? retries - 1).
      * unfold log at 1. cbn [trace]. rewrite gets_app.
        change (trace (on_rate_limiter _ ?x)) with (trace x).
        rewrite (Hg _ eq_refl). simpl. rewrite app_nil_r. reflexivity.
      * apply Hg. reflexivity.
Qed.

End FetchMore.

Section FetchFrame.

Import Avito.

Variable net : list event -> Sessions.session -> pystr -> outcome.

(** The attempt loop only records outcomes on the throttle and extends
    the trace. *)
(** Unfolding the state updates down to the fields. *)
Ltac flat_state :=
  unfold log, wait, on_rate_limiter, set_rate_limiter, set_session_manager, log;
  cbn [snd fst self fs trace base_url category_name filename link_file
       progress_file session_manager rate_limiter max_workers product_count
       processed_urls Throttle.run Throttle.step fold_left].

Lemma request_loop_shape
    (s : Sessions.session) (url : pystr) (retries attempt remaining : nat)
    (st : state) :
  exists calls tr,
    snd (request_loop net s url retries attempt remaining st)
    = mkState (self (set_rate_limiter
                       (Throttle.run calls (rate_limiter (self st))) st))
              (fs st) (trace st ++ tr).
Proof.
  revert attempt st. induction remaining as [|remaining IH]; intros attempt st.
  - exists [], []. simpl. rewrite app_nil_r. destruct st as [[] ? ?]. reflexivity.
  - cbn [request_loop].
    assert (Hrec : forall c extra,
      exists calls tr,
        snd (request_loop net s url retries (S attempt) remaining
               (mkState (self (set_rate_limiter
                                 (Throttle.step (rate_limiter (self st)) c) st))
                        (fs st)
                        (trace st ++ EvWait (Throttle.current_delay
                                               (rate_limiter (self st)))
                                  :: EvGet s url :: extra)))
        = mkState (self (set_rate_limiter
                           (Throttle.run calls (rate_limiter (self st))) st))
                  (fs st) (trace st ++ tr)).
    { intros c extra.
      match goal with |- context [request_loop _ _ _ _ _ _ ?st1] =>
        destruct (IH (S attempt) st1) as (calls & tr & E) end.
      exists (c :: calls), (EvWait (Throttle.current_delay (rate_limiter (self st)))
                            :: EvGet s url :: extra ++ tr).
      rewrite E. cbn [self fs trace]. rewrite <- List.app_assoc. reflexivity. }
    destruct (net (trace (wait st)) s url) as [r|].
    + destruct (status_code r =? 200)%Z; [|destruct (status_code r =? 429)%Z].
      * exists [Throttle.Success],
               [EvWait (Throttle.current_delay (rate_limiter (self st))); EvGet s url].
        flat_state. rewrite <- List.app_assoc. reflexivity.
      * destruct (Hrec (Throttle.Error (Some 429%Z)) [EvSleep ((attempt + 1) * 10)])
          as (calls & tr & E).
        exists calls, tr. rewrite <- E. f_equal. flat_state.
        rewrite <- ?List.app_assoc. reflexivity.
      * destruct (Hrec (Throttle.Error (Some (status_code r))) [])
          as (calls & tr & E).
        exists calls, tr. rewrite <- E. f_equal. flat_state.
        rewrite <- ?List.app_assoc. reflexivity.
    + destruct (attempt <? retries - 1).
      * destruct (Hrec (Throttle.Error None) [EvSleepUniform 2 5])
          as (calls & tr & E).
        exists calls, tr. rewrite <- E. f_equal. flat_state.
        rewrite <- ?List.app_assoc. reflexivity.
      * destruct (Hrec (Throttle.Error None) []) as (calls & tr & E).
        exists calls, tr. rewrite <- E. f_equal. flat_state.
        rewrite <- ?List.app_assoc. reflexivity.
Qed.

(** The same for [make_request], which also moves the cursor of the pool. *)
Lemma make_request_shape (url : pystr) (retries : nat) (st : state) :
  exists calls tr m,
    state_after st (make_request net url retries st)
    = mkState (self (set_rate_limiter
                       (Throttle.run calls (rate_limiter (self st)))
                       (set_session_manager m st)))
              (fs st) (trace st ++ tr).
Proof.
  unfold make_request.
  destruct (Sessions.get_session (session_manager (self st))) as [[s m]|].
  - destruct (request_loop_shape s url retries 0 retries (set_session_manager m st))
      as (calls & tr & E).
    exists calls, tr, m.
    destruct (request_loop net s url retries 0 retries (set_session_manager m st))
      as [res st'].
    cbn [state_after]. cbn [snd] in E. rewrite E. reflexivity.
  - exists [], [], (session_manager (self st)). cbn.
    rewrite app_nil_r. destruct st as [[] ? ?]. reflexivity.
Qed.

(** X6. [make_request] leaves the ledger, the files, the product counter
    and the configuration as they are, and only extends the trace. *)
Theorem make_request_leaves_ledger (url : pystr) (retries : nat) (st : state) :
  let st' := state_after st (make_request net url retries st) in
  processed_urls (self st') = processed_urls (self st)
  /\ fs st' = fs st
  /\ product_count (self st') = product_count (self st)
  /\ base_url (self st') = base_url (self st)
  /\ link_file (self st') = link_file (self st)
  /\ progress_file (self st') = progress_file (self st)
  /\ exists tr, trace st' = trace st ++ tr.
Proof.
  intros st'. subst st'.
  destruct (make_request_shape url retries st) as (calls & tr & m & E).
  rewrite E. cbn. repeat split. exists tr. reflexivity.
Qed.

(** X7. Whatever the site answers and however many attempts are made,
    a fetch keeps the delay of the throttle between a non-negative floor
    and the ceiling, and does not move either limit. *)
Theorem make_request_keeps_delay_in_bounds (url : pystr) (retries : nat) (st : state) :
  let rl := rate_limiter (self st) in
  let rl' := rate_limiter (self (state_after st (make_request net url retries st))) in
  (0 <= Throttle.base_delay rl)%Q ->
  (Throttle.base_delay rl <= Throttle.max_delay rl)%Q ->
  Throttle.in_bounds rl ->
  Throttle.in_bounds rl'
  /\ Throttle.base_delay rl' = Throttle.base_delay rl
  /\ Throttle.max_delay rl' = Throttle.max_delay rl.
Proof.
  intros rl rl' H0 Hlh Hin. subst rl'.
  destruct (make_request_shape url retries st) as (calls & tr & m & E).
  rewrite E. cbn [self set_rate_limiter rate_limiter].
  apply run_in_bounds; assumption.
Qed.

(** X8. A pool without sessions: [get_session] raises [IndexError], and
    so do a fetch, the link collection and the extraction of a URL not yet
    processed, before any request is made or any state changed. *)
Theorem empty_pool_raises
    upper re_sub now (url : pystr) (retries fuel : nat) (st : state) :
  Sessions.sessions (session_manager (self st)) = [] ->
  make_request net url retries st = Raised IndexError st
  /\ collect_links_optimized net (S fuel) st = Raised IndexError st
  /\ (url ∉ processed_urls (self st) ->
      extract_info net upper re_sub now url st = Raised IndexError st).
Proof.
  intros Hempty.
  assert (Hreq : forall u n, make_request net u n st = Raised IndexError st).
  { intros u n. unfold make_request, Sessions.get_session. rewrite Hempty.
    destruct (Sessions.current_session _); reflexivity. }
  split; [apply Hreq|]. split.
  - unfold collect_links_optimized. cbn [collect_loop]. rewrite Hreq. reflexivity.
  - intros Hnew. unfold extract_info.
    destruct (decide (url ∈ processed_urls (self st))); [contradiction|].
    rewrite Hreq. reflexivity.
Qed.

End FetchFrame.

Lemma make_request_keeps_delay_in_bounds_witness :
  let st := Samples.fresh in
  let rl' := Avito.rate_limiter (Avito.self (Avito.state_after st
               (Avito.make_request (Samples.net_status 429)
                                   Samples.category_root 3 st))) in
  Throttle.in_bounds rl'
  /\ Throttle.base_delay rl' = (8 # 10)%Q
  /\ Throttle.max_delay rl' = 6%Q.
Proof.
  intros st rl'.
  apply (make_request_keeps_delay_in_bounds
           (Samples.net_status 429) Samples.category_root 3 st).
  - vm_compute. discriminate.
  - vm_compute. discriminate.
  - split; vm_compute; discriminate.
Defined.

Lemma empty_pool_raises_witness :
  let st := Avito.init Samples.category_root (lit "desktop") 0 ∅ in
  Avito.make_request (Samples.net_status 200) Samples.category_root 3 st
  = Avito.Raised Avito.IndexError st
  /\ Avito.collect_links_optimized (Samples.net_status 200) 1 st
     = Avito.Raised Avito.IndexError st
  /\ Avito.extract_info (Samples.net_status 200) Samples.ascii_upper
                        Samples.no_sub (fun _ => []) Samples.category_root st
     = Avito.Raised Avito.IndexError st.
Proof.
  intros st.
  destruct (empty_pool_raises (Samples.net_status 200) Samples.ascii_upper
              Samples.no_sub (fun _ => []) Samples.category_root 3 0 st)
    as (H1 & H2 & H3); [reflexivity|].
  split; [exact H1|]. split; [exact H2|].
  apply H3. apply (bool_decide_unpack _). vm_compute. exact I.
Defined.

Section RateLimitedSite.

Import Avito.

Variable net : list event -> Sessions.session -> pystr -> outcome.

(** X9. When the site answers every request for a URL with status 429,
    the attempt loop uses all its attempts and returns nothing; after
    attempt [a] (counted from 0) it sleeps [(a + 1) * 10] seconds, so
    10, 20 and 30 seconds for the three attempts of a fetch; and the
    throttle doubles its delay, clamped at the ceiling, once per attempt. *)
Theorem rate_limited_site_cools_down
    (s : Sessions.session) (url : pystr) (retries attempt remaining : nat)
    (st : state) :
  (forall tr, exists doc, net tr s url = Responded (mkResponse 429 doc)) ->
  let out := request_loop net s url retries attempt remaining st in
  let rl := rate_limiter (self st) in
  fst out = None
  /\ sleeps (trace (snd out))
     = sleeps (trace st)
       ++ List.map (fun a => (a + 1) * 10) (seq attempt remaining)
  /\ Throttle.current_delay (rate_limiter (self (snd out)))
     = Nat.iter remaining
                (fun d => Throttle.py_min (Throttle.max_delay rl) (d * 2)%Q)
                (Throttle.current_delay rl).
Proof.
  intros Hnet. revert attempt st.
  induction remaining as [|remaining IH]; intros attempt st out rl.
  - subst out rl. simpl. rewrite app_nil_r. auto.
  - subst out rl. cbn [request_loop].
    destruct (Hnet (trace (wait st))) as [doc E]. rewrite E.
    cbn [status_code]. change (429 =? 200)%Z with false. change (429 =? 429)%Z with true.
    cbv iota.
    match goal with |- context [request_loop _ _ _ _ _ _ ?st4] =>
      destruct (IH (S attempt) st4) as (Hres & Hsleeps & Hdelay);
      set (st' := st4) in *
    end.
    split; [exact Hres|]. split.
    + rewrite Hsleeps. subst st'. unfold log, wait, on_rate_limiter, set_rate_limiter, log.
      cbn [trace]. rewrite !sleeps_app. simpl. rewrite !app_nil_r, <- List.app_assoc.
      reflexivity.
    + rewrite Hdelay. subst st'. rewrite Nat.iter_succ_r. reflexivity.
Qed.

End RateLimitedSite.

Lemma rate_limited_site_cools_down_witness :
  let out := Avito.request_loop (Samples.net_status 429) Samples.first_session
               Samples.category_root 3 0 3 Samples.fresh in
  fst out = None
  /\ Avito.sleeps (Avito.trace (snd out)) = [10; 20; 30]
  /\ Throttle.current_delay (Avito.rate_limiter (Avito.self (snd out)))
     = Nat.iter 3 (fun d => Throttle.py_min 6 (d * 2)%Q) (8 # 10)%Q.
Proof.
  apply (rate_limited_site_cools_down
           (Samples.net_status 429) Samples.first_session
           Samples.category_root 3 0 3 Samples.fresh).
  intros tr. exists Html.empty_soup. reflexivity.
Defined.

(* --------------------------------------------------------------------- *)
(** ** The resume ledger: recording                                       *)
(* --------------------------------------------------------------------- *)

Section LedgerMore.

Import Avito.

(** X10. Recording a URL a second time changes nothing: the set and the
    ledger file are as the first recording left them. *)
Theorem save_progress_idempotent (url : pystr) (st : state) :
  save_progress url (save_progress url st) = save_progress url st.
Proof.
  unfold save_progress at 2 3.
  destruct (decide (url ∈ processed_urls (self st))) as [Hin|Hnin].
  - unfold save_progress. destruct (decide _); [reflexivity | contradiction].
  - unfold save_progress.
    match goal with |- context [decide (url ∈ ?X)] =>
      destruct (decide (url ∈ X)) as [_|Hn] end; [reflexivity|].
    exfalso. apply Hn. cbn. set_solver.
Qed.

Lemma save_progress_effect (url : pystr) (st : state) :
  processed_urls (self (save_progress url st)) = processed_urls (self st) ∪ {[url]}
  /\ (exists suffix,
        default [] (fs (save_progress url st) !! progress_file (self st))
        = default [] (fs st !! progress_file (self st)) ++ suffix)
  /\ (forall path, path <> progress_file (self st) ->
        fs (save_progress url st) !! path = fs st !! path).
Proof.
  unfold save_progress.
  destruct (decide (url ∈ processed_urls (self st))) as [Hin|Hnin].
  - split; [set_solver|]. split; [exists []; rewrite app_nil_r; reflexivity | auto].
  - cbn [self fs set_fs set_processed_urls processed_urls progress_file].
    split; [set_solver|]. split.
    + exists (url ++ [LF]). unfold append_file. rewrite lookup_insert_eq. reflexivity.
    + intros path Hne. unfold append_file. apply lookup_insert_ne. auto.
Qed.

(** X11. Recording never forgets: after recording a list of URLs the set
    is the old set with those URLs added, the ledger file is the old file
    with text appended, and no other file is touched. *)
Theorem record_all_append_only (urls : list pystr) (st : state) :
  processed_urls (self (record_all urls st))
  = processed_urls (self st) ∪ list_to_set urls
  /\ (exists suffix,
        default [] (fs (record_all urls st) !! progress_file (self st))
        = default [] (fs st !! progress_file (self st)) ++ suffix)
  /\ (forall path, path <> progress_file (self st) ->
        fs (record_all urls st) !! path = fs st !! path).
Proof.
  revert st. induction urls as [|url urls IH]; intros st.
  - cbn. split; [set_solver|]. split; [exists []; rewrite app_nil_r; reflexivity | auto].
  - cbn [record_all fold_left]. fold (record_all urls (save_progress url st)).
    destruct (IH (save_progress url st)) as (Hset & [suf Hfile] & Hother).
    destruct (save_progress_effect url st) as (Hset1 & [suf1 Hfile1] & Hother1).
    rewrite save_progress_progress_file in Hfile, Hother.
    split; [|split].
    + rewrite Hset, Hset1, list_to_set_cons. set_solver.
    + exists (suf1 ++ suf). rewrite Hfile, Hfile1, <- List.app_assoc. reflexivity.
    + intros path Hne. rewrite Hother, Hother1; auto.
Qed.

End LedgerMore.

(* --------------------------------------------------------------------- *)
(** ** Link discovery: what is collected and what is saved                *)
(* --------------------------------------------------------------------- *)

Section FrontierMore.

Import Html Avito.

Lemma contains_app_r (pre s p : pystr) :
  contains s p = true -> contains (pre ++ s) p = true.
Proof.
  rewrite !contains_slice. intros (before & after & ->).
  exists (pre ++ before), after. rewrite <- List.app_assoc. reflexivity.
Qed.

(** X12. The links kept from a page are at most one per item; none is
    already in the ledger, none is relative (starts with a slash), and
    each shows one of the category markers. *)
Theorem new_links_kept (items : list element) (processed : gset pystr) :
  length (new_links items processed) <= length items
  /\ Forall (fun u => (u ∉ processed)
                      /\ startswith u (lit "/") = false
                      /\ (contains u (lit "/ordinateurs")
                          || contains u (lit "desktop")
                          || contains u (lit "bureau")) = true)
            (new_links items processed).
Proof.
  induction items as [|item items [IHlen IH]]; [split; [simpl; lia | constructor]|].
  cbn [new_links length].
  destruct (get (lit "href") (attrs item)) as [href|]; [|split; [lia | exact IH]].
  destruct (truthy href && _) eqn:Hkeep; [|split; [lia | exact IH]].
  apply andb_true_iff in Hkeep as [_ Hmark].
  destruct (startswith href (lit "/")) eqn:Hslash.
  - destruct (decide _) as [|Hnew]; [split; [lia | exact IH]|].
    split; [simpl; lia|]. constructor; [|exact IH].
    split; [exact Hnew|]. split; [vm_compute; reflexivity|].
    apply orb_true_iff in Hmark as [Hmark|Hmark];
      [apply orb_true_iff in Hmark as [Hmark|Hmark]|];
      apply (contains_app_r (lit "https://www.avito.ma")) in Hmark;
      rewrite Hmark; rewrite ?orb_true_r; reflexivity.
  - destruct (decide _) as [|Hnew]; [split; [lia | exact IH]|].
    split; [simpl; lia|]. constructor; [|exact IH]. auto.
Qed.

End FrontierMore.

Section FrontierRun.

Import Html Avito.

Variable net : list event -> Sessions.session -> pystr -> outcome.

Lemma make_request_done_frame (url : pystr) (retries : nat) (st st1 : state)
      (response : option Avito.response) :
  make_request net url retries st = Done response st1 ->
  processed_urls (self st1) = processed_urls (self st)
  /\ fs st1 = fs st
  /\ link_file (self st1) = link_file (self st)
  /\ progress_file (self st1) = progress_file (self st)
  /\ product_count (self st1) = product_count (self st)
  /\ base_url (self st1) = base_url (self st).
Proof.
  intros Hreq.
  destruct (make_request_shape net url retries st) as (calls & tr & m & E).
  rewrite Hreq in E. cbn [state_after] in E. rewrite E. cbn. auto 10.
Qed.

Lemma new_links_not_processed (items : list element) (processed : gset pystr) :
  Forall (fun u => u ∉ processed) (new_links items processed).
Proof.
  induction items as [|item items IH]; [constructor|]. cbn [new_links].
  destruct (get (lit "href") (attrs item)) as [href|]; [|exact IH].
  destruct (truthy href && _); [|exact IH].
  destruct (decide _) as [|Hnew]; [exact IH|]. constructor; assumption.
Qed.

Lemma collect_loop_frame (fuel : nat) :
  forall (page total : nat) (collected : list pystr) (st st' : state)
         (links : list pystr),
    collect_loop net fuel page total collected st = Done links st' ->
    (exists more, links = collected ++ more
                  /\ Forall (fun u => u ∉ processed_urls (self st)) more)
    /\ processed_urls (self st') = processed_urls (self st)
    /\ fs st' = fs st
    /\ link_file (self st') = link_file (self st).
Proof.
  induction fuel as [|fuel IH]; intros page total collected st st' links Hrun;
    [discriminate Hrun|].
  cbn [collect_loop] in Hrun.
  destruct (make_request net (page_url (base_url (self st)) page) 3 st)
    as [response st1| |] eqn:Hreq; cbn [bind] in Hrun; try discriminate Hrun.
  destruct (make_request_done_frame _ _ _ _ _ Hreq) as (Hp & Hfs & Hlf & _).
  assert (Hstop : Done collected st1 = Done links st' ->
                  (exists more, links = collected ++ more
                     /\ Forall (fun u => u ∉ processed_urls (self st)) more)
                  /\ processed_urls (self st') = processed_urls (self st)
                  /\ fs st' = fs st
                  /\ link_file (self st') = link_file (self st)).
  { intros H. injection H as <- <-. split; [|auto].
    exists []. rewrite app_nil_r. split; [reflexivity | constructor]. }
  destruct response as [r|]; [|exact (Hstop Hrun)].
  destruct (select_items (body r) link_selectors) as [|item items];
    [exact (Hstop Hrun)|].
  destruct ((length (new_links (item :: items) (processed_urls (self st1))) <? 5)
            && (1 <? page)); [exact (Hstop Hrun)|].
  apply IH in Hrun as ((more & -> & Hmore) & Hp' & Hfs' & Hlf').
  cbn [log self fs] in Hmore, Hp', Hfs', Hlf'.
  split; [|rewrite Hp', Hfs', Hlf'; auto].
  exists (new_links (item :: items) (processed_urls (self st1)) ++ more).
  split; [rewrite List.app_assoc; reflexivity|].
  apply Forall_app. split.
  - rewrite <- Hp. apply new_links_not_processed.
  - rewrite <- Hp. exact Hmore.
Qed.

(** X13. When the collection of links returns, no returned link is in
    the ledger, the link file holds exactly the returned links, one per
    line, no other file is touched and the ledger set is as before. *)
Theorem collect_links_saved
    (fuel : nat) (st st' : state) (links : list pystr) :
  collect_links_optimized net fuel st = Done links st' ->
  Forall (fun u => u ∉ processed_urls (self st)) links
  /\ fs st' !! link_file (self st)
     = Some (List.concat (List.map (fun url => url ++ [LF]) links))
  /\ (forall path, path <> link_file (self st) -> fs st' !! path = fs st !! path)
  /\ processed_urls (self st') = processed_urls (self st).
Proof.
  unfold collect_links_optimized. intros Hrun.
  destruct (collect_loop net fuel 1 0 [] st) as [collected st1| |] eqn:Hloop;
    cbn [bind] in Hrun; try discriminate Hrun.
  injection Hrun as <- <-.
  apply collect_loop_frame in Hloop as ((more & -> & Hmore) & Hp & Hfs & Hlf).
  cbn [app self fs set_fs]. rewrite Hlf, Hfs. unfold write_file.
  split; [exact Hmore|]. split; [apply lookup_insert_eq|].
  split; [|exact Hp].
  intros path Hne. apply lookup_insert_ne. auto.
Qed.

(** X14. A run that finds a saved link list makes no request: it takes
    the links of the file, in order, minus those the ledger holds, and
    stops when none is left. The links are those written provided none
    holds a line break and each is equal to its stripped form. *)
Theorem discover_reloads_saved_links
    (fuel : nat) (st : state) (links : list pystr) :
  fs st !! link_file (self st)
  = Some (List.concat (List.map (fun url => url ++ [LF]) links)) ->
  Forall clean_url links ->
  discover net fuel st
  = Done (match List.filter
                  (fun l => negb (bool_decide (l ∈ processed_urls (self st))))
                  links with
          | [] => NoNewLinks
          | pending => ToProcess pending
          end) st.
Proof.
  intros Hfile Hclean. unfold discover. unfold pystr in *. rewrite Hfile.
  rewrite file_lines_ledger, strip_ledger_lines by exact Hclean.
  destruct (List.filter _ links); reflexivity.
Qed.

End FrontierRun.

Lemma collect_links_saved_witness :
  let run := Avito.collect_links_optimized Samples.net_category 10 Samples.fresh in
  let links := default [] (Samples.value run) in
  let st' := Avito.state_after Samples.fresh run in
  length links = 6
  /\ Forall (fun u => u ∉ Avito.processed_urls (Avito.self Samples.fresh)) links
  /\ Avito.fs st' !! Avito.link_file (Avito.self Samples.fresh)
     = Some (List.concat (List.map (fun url => url ++ [LF]) links)).
Proof.
  intros run links st'. split; [reflexivity|].
  destruct (collect_links_saved Samples.net_category 10 Samples.fresh st' links)
    as (H1 & H2 & _); [reflexivity|].
  split; assumption.
Defined.

Lemma discover_reloads_saved_links_witness :
  let links := [lit "https://www.avito.ma/ordinateurs/a";
                lit "https://www.avito.ma/ordinateurs/b"] in
  let st := Avito.set_processed_urls {[ lit "https://www.avito.ma/ordinateurs/a" ]}
              (Avito.set_fs
                 (Avito.write_file (Avito.link_file (Avito.self Samples.fresh))
                    (List.concat (List.map (fun url => url ++ [LF]) links))
                    (Avito.fs Samples.fresh))
                 Samples.fresh) in
  Avito.discover Samples.net_category 0 st
  = Avito.Done (Avito.ToProcess [lit "https://www.avito.ma/ordinateurs/b"]) st.
Proof.
  intros links st.
  rewrite (discover_reloads_saved_links Samples.net_category 0 st links).
  - vm_compute. reflexivity.
  - apply lookup_insert_eq.
  - repeat constructor;
      try (apply (bool_decide_unpack _); vm_compute; exact I).
Defined.

(* --------------------------------------------------------------------- *)
(** ** Extraction: the scored search and the record of a page             *)
(* --------------------------------------------------------------------- *)

Section ExtractionMore.

Import Html Avito.

Variable net : list event -> Sessions.session -> pystr -> outcome.
Variable upper : pystr -> pystr.
Variable re_sub : pystr -> pystr -> pystr -> bool -> pystr.
Variable now : list event -> pystr.

Lemma best_so_far_weaken (seen : list element) (div : element)
      (acc : option pystr * Z) :
  best_so_far upper seen acc ->
  (50 <= length (get_text_strip div) /\ length (get_text_strip div) <= 2000 ->
   (score upper (get_text_strip div) <= snd acc
    \/ score upper (get_text_strip div) < 3)%Z) ->
  best_so_far upper (seen ++ [div]) acc.
Proof.
  intros [Hall Hbest] Hdiv. split.
  - intros d Hd Hr. apply in_app_or in Hd as [Hd|[<-|[]]]; auto.
  - destruct (fst acc) as [t|]; [|exact Hbest].
    destruct Hbest as (d & Hd & Ht). exists d.
    split; [apply in_or_app; auto | exact Ht].
Qed.

Lemma scored_step_best (seen : list element) (div : element)
      (acc : option pystr * Z) :
  best_so_far upper seen acc ->
  best_so_far upper (seen ++ [div]) (scored_step upper acc div).
Proof.
  intros Hacc. unfold scored_step.
  destruct (Nat.ltb_spec (length (get_text_strip div)) 50) as [Hshort|Hlong];
    [|destruct (Nat.ltb_spec 2000 (length (get_text_strip div))) as [Hbig|Hfit]];
    cbn [orb].
  - apply best_so_far_weaken; [exact Hacc | lia].
  - apply best_so_far_weaken; [exact Hacc | lia].
  - destruct (Z.ltb_spec (snd acc) (score upper (get_text_strip div))) as [Hbetter|Hworse];
      [destruct (Z.leb_spec 3 (score upper (get_text_strip div))) as [Hok|Hlow]|];
      cbn [andb].
    + destruct Hacc as [Hall _]. split; cbn [fst snd].
      * intros d Hd Hr. apply in_app_or in Hd as [Hd|[<-|[]]]; [|lia].
        destruct (Hall d Hd Hr); lia.
      * exists div. split; [apply in_or_app; right; left; reflexivity|].
        repeat split; auto; lia.
    + apply best_so_far_weaken; [exact Hacc | lia].
    + apply best_so_far_weaken; [exact Hacc | lia].
Qed.

Lemma scored_fold_best (divs seen : list element) (acc : option pystr * Z) :
  best_so_far upper seen acc ->
  best_so_far upper (seen ++ divs) (fold_left (scored_step upper) divs acc).
Proof.
  revert seen acc. induction divs as [|div divs IH]; intros seen acc Hacc.
  - cbn. rewrite app_nil_r. exact Hacc.
  - cbn [fold_left].
    replace (seen ++ div :: divs) with ((seen ++ [div]) ++ divs)
      by (rewrite <- List.app_assoc; reflexivity).
    apply IH, scored_step_best, Hacc.
Qed.

(** X15. Strategy 2 returns the text of a block whose length is between
    50 and 2000 and whose score is at least 3, and no block in that range
    scores higher; it returns nothing exactly when every block in range
    scores below 3. *)
Theorem scored_phase_best (doc : soup) :
  let divs := find_all doc [lit "div"; lit "section"; lit "article"] None in
  match scored_phase upper doc with
  | Some t =>
      (exists d, In d divs /\ t = get_text_strip d)
      /\ 50 <= length t /\ length t <= 2000
      /\ (3 <= score upper t)%Z
      /\ forall d, In d divs ->
            50 <= length (get_text_strip d) /\ length (get_text_strip d) <= 2000 ->
            (score upper (get_text_strip d) <= score upper t)%Z
  | None =>
      forall d, In d divs ->
        50 <= length (get_text_strip d) /\ length (get_text_strip d) <= 2000 ->
        (score upper (get_text_strip d) < 3)%Z
  end.
Proof.
  intros divs. unfold scored_phase. fold divs.
  destruct (scored_fold_best divs [] (None, 0%Z)) as [Hall Hbest].
  { split; [intros d [] | reflexivity]. }
  cbn [app] in Hall, Hbest.
  destruct (fst (fold_left (scored_step upper) divs (None, 0%Z))) as [t|].
  - destruct Hbest as (d & Hd & Ht & Hlo & Hhi & Hs & H3).
    split; [eauto|]. split; [exact Hlo|]. split; [exact Hhi|]. split; [lia|].
    intros d' Hd' Hr'. destruct (Hall d' Hd' Hr'); lia.
  - intros d Hd Hr. destruct (Hall d Hd Hr); lia.
Qed.

(** X16. The description of a record is never the empty string: it is
    the placeholder when no strategy finds a text and also when the
    clean-up leaves nothing of the text found. *)
Theorem description_never_empty (doc : soup) :
  truthy (extract_description_improved upper re_sub doc) = true
  /\ (forall d, fst (find_description upper doc) = Some d ->
                clean_description re_sub d = [] ->
                extract_description_improved upper re_sub doc = NA).
Proof.
  unfold extract_description_improved.
  destruct (fst (find_description upper doc)) as [d|].
  - destruct (truthy (clean_description re_sub d)) eqn:E.
    + split; [exact E|]. intros d' Hd' Hnil. injection Hd' as <-.
      rewrite Hnil in E. discriminate E.
    + split; [reflexivity|]. auto.
  - split; [reflexivity|]. intros d Hd. discriminate Hd.
Qed.

Lemma save_progress_records (url : pystr) (st : state) :
  url ∈ processed_urls (self (save_progress url st)).
Proof.
  unfold save_progress. destruct (decide _) as [Hin|Hnin]; [exact Hin|].
  cbn. set_solver.
Qed.

(** X17. When [extract_info] returns a record, the URL was not in the
    ledger before and is in it afterwards, its line is the last of the
    ledger file, the record carries the URL, the product counter has gone
    up by one, and a later call for the same URL, in any state whose
    ledger still holds what it held then, returns nothing without a
    request or any other effect. *)
Theorem extract_info_at_most_once (url : pystr) (st st' : state) (p : product) :
  extract_info net upper re_sub now url st = Done (Some p) st' ->
  (url ∉ processed_urls (self st))
  /\ url ∈ processed_urls (self st')
  /\ default [] (fs st' !! progress_file (self st))
     = default [] (fs st !! progress_file (self st)) ++ url ++ [LF]
  /\ URL p = url
  /\ product_count (self st') = S (product_count (self st))
  /\ (forall later : state,
        processed_urls (self st') ⊆ processed_urls (self later) ->
        extract_info net upper re_sub now url later = Done None later).
Proof.
  unfold extract_info at 1. intros Hrun.
  destruct (decide (url ∈ processed_urls (self st))) as [|Hnew];
    [discriminate Hrun|].
  destruct (make_request net url 3 st) as [response st1| |] eqn:Hreq;
    cbn [bind] in Hrun; try discriminate Hrun.
  destruct response as [r|]; [|discriminate Hrun].
  injection Hrun as <- <-.
  destruct (make_request_done_frame net _ _ _ _ _ Hreq)
    as (Hp & Hfs & _ & Hpf & Hcount & _).
  split; [exact Hnew|]. split; [apply save_progress_records|].
  split; [|split; [reflexivity|split]].
  - unfold save_progress.
    destruct (decide _) as [Hin|_]; [cbn in Hin; rewrite Hp in Hin; contradiction|].
    cbn [self fs set_fs set_processed_urls set_product_count progress_file].
    unfold append_file. rewrite Hpf, Hfs, lookup_insert_eq. reflexivity.
  - unfold save_progress. destruct (decide _); cbn; rewrite Hcount; reflexivity.
  - intros later Hsub. unfold extract_info.
    destruct (decide _) as [|Hn]; [reflexivity|].
    exfalso. apply Hn, Hsub, save_progress_records.
Qed.


End ExtractionMore.

Lemma description_never_empty_witness :
  let erase := fun (pattern repl text : pystr) (flags : bool) => @nil N in
  Avito.extract_description_improved Samples.ascii_upper erase
    (Samples.description_page Samples.fifty_one) = Avito.NA.
Proof.
  intros erase.
  destruct (description_never_empty Samples.ascii_upper erase
              (Samples.description_page Samples.fifty_one)) as [_ H].
  apply (H Samples.fifty_one); reflexivity.
Defined.

Lemma extract_info_at_most_once_witness :
  let now := fun _ : list Avito.event => lit "2025-01-01 00:00:00" in
  let run := Avito.extract_info (Samples.net_status 200) Samples.ascii_upper
               Samples.no_sub now Samples.category_root Samples.fresh in
  let st' := Avito.state_after Samples.fresh run in
  Samples.category_root ∈ Avito.processed_urls (Avito.self st')
  /\ Avito.product_count (Avito.self st') = 1
  /\ Avito.extract_info (Samples.net_status 200) Samples.ascii_upper
                        Samples.no_sub now Samples.category_root st'
     = Avito.Done None st'.
Proof.
  intros now run st'.
  destruct (extract_info_at_most_once
              (Samples.net_status 200) Samples.ascii_upper Samples.no_sub now
              Samples.category_root Samples.fresh st'
              (Avito.extract_fields Samples.ascii_upper Samples.no_sub
                 Html.empty_soup Samples.category_root
                 (lit "2025-01-01 00:00:00")))
    as (_ & Hin & _ & _ & Hcount & Hagain); [reflexivity|].
  split; [exact Hin|]. split; [exact Hcount | apply Hagain; reflexivity].
Defined.


(* --------------------------------------------------------------------- *)
(** ** Saving records in batches                                          *)
(* --------------------------------------------------------------------- *)

Section BatchFacts.

Import Avito.

(** The records among the results of the futures, in completion order. *)
Lemma batch_loop_shape (completed : list (option product)) :
  forall results : list product,
    length results < 10 ->
    exists full rest,
      batch_loop completed results = full ++ rest
      /\ Forall (fun b => length b = 10) full
      /\ (rest = [] \/ exists b, rest = [b] /\ 1 <= length b /\ length b <= 9)
      /\ List.concat (full ++ rest)
         = results ++ flat_map (fun o => match o with Some p => [p] | None => [] end)
                               completed.
Proof.
  induction completed as [|[result|] completed IH]; intros results Hlt.
  - exists []. cbn [batch_loop flat_map]. rewrite app_nil_r.
    destruct results as [|p results].
    + exists []. cbn. auto.
    + exists [p :: results]. cbn [app List.concat]. rewrite app_nil_r.
      split; [reflexivity|]. split; [constructor|]. split; [|reflexivity].
      right. exists (p :: results). split; [reflexivity | simpl in *; lia].
  - cbn [batch_loop flat_map].
    destruct (Nat.leb_spec 10 (length (results ++ [result]))) as [Hfull|Hless].
    + destruct (IH []) as (full & rest & E & Hall & Hrest & Hcat); [simpl; lia|].
      exists ((results ++ [result]) :: full), rest. rewrite E.
      split; [reflexivity|]. split.
      * constructor; [|exact Hall]. rewrite length_app in *. simpl in *. lia.
      * split; [exact Hrest|]. cbn [app List.concat]. rewrite Hcat.
        cbn [app]. rewrite <- List.app_assoc. reflexivity.
    + destruct (IH (results ++ [result])) as (full & rest & E & Hall & Hrest & Hcat);
        [exact Hless|].
      exists full, rest. rewrite E, Hcat, <- List.app_assoc. auto.
  - cbn [batch_loop flat_map app]. apply IH. exact Hlt.
Qed.

(** X19. The collection loop of [worker_batch] hands the records to
    [save_product_batch] in batches of exactly 10, followed by at most one
    last batch of 1 to 9; together the batches are the records of the
    completed futures, each once, in completion order. *)
Theorem worker_batch_batches (completed : list (option product)) :
  exists full rest,
    batch_loop completed [] = full ++ rest
    /\ Forall (fun b => length b = 10) full
    /\ (rest = [] \/ exists b, rest = [b] /\ 1 <= length b /\ length b <= 9)
    /\ List.concat (batch_loop completed [])
       = flat_map (fun o => match o with Some p => [p] | None => [] end) completed.
Proof.
  destruct (batch_loop_shape completed []) as (full & rest & E & Hall & Hrest & Hcat);
    [simpl; lia|].
  exists full, rest. rewrite E. auto.
Qed.

(** The flushes of 23 records: two batches of 10 and a last one of 3. *)
Example worker_batch_23 (p : product) :
  List.map (@length product) (batch_loop (repeat (Some p) 23) []) = [10; 10; 3].
Proof. reflexivity. Qed.

Variable writerow : product -> pystr.

Lemma append_file_twice (path a b : pystr) (files : gmap pystr pystr) :
  append_file path b (append_file path a files) = append_file path (a ++ b) files.
Proof.
  unfold append_file. rewrite lookup_insert_eq, insert_insert_eq.
  cbn [from_option id]. rewrite <- List.app_assoc. reflexivity.
Qed.

Lemma save_batches_fold (path : pystr) (batches : list (list product)) :
  forall (a : pystr) (files : gmap pystr pystr),
    fold_left (fun f batch => save_product_batch writerow path batch f)
              batches (append_file path a files)
    = append_file path
        (a ++ List.concat (List.map writerow (List.concat batches))) files.
Proof.
  induction batches as [|b batches IH]; intros a files.
  - cbn. rewrite app_nil_r. reflexivity.
  - cbn [fold_left List.concat]. unfold save_product_batch at 2.
    rewrite append_file_twice, IH, List.map_app, List.concat_app,
      <- List.app_assoc.
    reflexivity.
Qed.

(** X20. Batching is invisible in the record file: when at least one
    future returned a record, [worker_batch] leaves the file as a single
    append of the rows of all records, in completion order; when none did,
    no file is opened. *)
Theorem worker_batch_sink_single_append
    (path : pystr) (completed : list (option product)) (files : gmap pystr pystr) :
  let records := flat_map (fun o => match o with Some p => [p] | None => [] end)
                          completed in
  worker_batch_sink writerow path completed files
  = match records with
    | [] => files
    | _ => append_file path (List.concat (List.map writerow records)) files
    end.
Proof.
  intros records. unfold worker_batch_sink.
  destruct (batch_loop_shape completed []) as (full & rest & E & Hall & Hrest & Hcat);
    [simpl; lia|].
  cbn [app] in Hcat. fold records in Hcat. rewrite <- E in Hcat.
  destruct (batch_loop completed []) as [|b batches] eqn:Eb.
  - cbn in Hcat. rewrite <- Hcat. reflexivity.
  - assert (Hb : b <> []).
    { destruct full as [|f full]; cbn [app] in E.
      - destruct Hrest as [->|(b' & -> & Hlen)]; [discriminate E|].
        injection E as -> _. intros ->. simpl in Hlen. lia.
      - injection E as -> _. inversion Hall as [|? ? Hf _]; subst.
        intros ->. discriminate Hf. }
    cbn [fold_left]. unfold save_product_batch at 2.
    rewrite save_batches_fold, <- List.concat_app, <- List.map_app.
    change (b ++ List.concat batches) with (List.concat (b :: batches)).
    rewrite Hcat.
    destruct records as [|r records']; [|reflexivity].
    destruct b; [contradiction | discriminate Hcat].
Qed.

End BatchFacts.

(* --------------------------------------------------------------------- *)
(** ** Batches of URLs                                                    *)
(* --------------------------------------------------------------------- *)

Section UrlBatchFacts.

Import Avito.

(** [range(100 * k, n, 100)] in closed form. *)
Lemma range_aux_hundreds (n fuel k : nat) :
  n - 100 * k <= fuel ->
  range_aux fuel (100 * k) n 100
  = List.map (fun j => 100 * j) (seq k ((n + 99) / 100 - k)).
Proof.
  revert k. induction fuel as [|fuel IH]; intros k Hfuel.
  - assert (H : (n + 99) / 100 - k = 0).
    { pose proof (Nat.div_mod_eq (n + 99) 100) as E.
      pose proof (Nat.mod_upper_bound (n + 99) 100). lia. }
    rewrite H. reflexivity.
  - cbn [range_aux]. destruct (Nat.ltb_spec (100 * k) n) as [Hlt|Hge].
    + assert (H : (n + 99) / 100 - k = S ((n + 99) / 100 - S k)).
      { pose proof (Nat.div_mod_eq (n + 99) 100) as E.
        pose proof (Nat.mod_upper_bound (n + 99) 100). lia. }
      rewrite H. cbn [seq List.map]. f_equal.
      replace (100 * k + 100) with (100 * S k) by lia.
      apply IH. lia.
    + assert (H : (n + 99) / 100 - k = 0).
      { pose proof (Nat.div_mod_eq (n + 99) 100) as E.
        pose proof (Nat.mod_upper_bound (n + 99) 100). lia. }
      rewrite H. reflexivity.
Qed.

Lemma hundreds_cover (l : list pystr) (m k : nat) :
  length l <= 100 * (k + m) ->
  List.concat (List.map (fun i => firstn 100 (skipn i l))
                        (List.map (fun j => 100 * j) (seq k m)))
  = skipn (100 * k) l.
Proof.
  revert k. induction m as [|m IH]; intros k Hlen.
  - cbn. rewrite skipn_all2 by lia. reflexivity.
  - cbn [seq List.map List.concat]. rewrite IH by lia.
    replace (100 * S k) with (100 + 100 * k) by lia.
    rewrite <- skipn_skipn. apply firstn_skipn.
Qed.

(** X21. The batches of [scrape_optimized] are the pending links cut
    into consecutive pieces: put end to end they give the list back, each
    holds between 1 and 100 links, and their printed numbers run from 1 to
    [total_batches] without a gap. *)
Theorem url_batches_cover (all_links : list pystr) :
  List.concat (List.map snd (url_batches all_links)) = all_links
  /\ List.map fst (url_batches all_links) = seq 1 (total_batches all_links)
  /\ Forall (fun b => 1 <= length (snd b) /\ length (snd b) <= 100)
            (url_batches all_links).
Proof.
  unfold url_batches, total_batches, range, batch_size.
  set (n := length all_links).
  pose proof (range_aux_hundreds n n 0) as E.
  change (100 * 0) with 0 in E. rewrite E by lia. clear E.
  rewrite Nat.sub_0_r.
  replace (n + 100 - 1) with (n + 99) by lia.
  set (T := (n + 99) / 100).
  assert (HT : n <= 100 * T /\ (T = 0 \/ 100 * (T - 1) < n)).
  { subst T. pose proof (Nat.div_mod_eq (n + 99) 100) as E.
    pose proof (Nat.mod_upper_bound (n + 99) 100). lia. }
  rewrite !List.map_map. cbn [fst snd]. split; [|split].
  - rewrite <- (List.map_map (fun j => 100 * j)
                            (fun i => firstn 100 (skipn i all_links))).
    rewrite hundreds_cover by (fold n; lia). reflexivity.
  - rewrite <- seq_shift. apply List.map_ext. intros j.
    rewrite Nat.mul_comm, Nat.div_mul by lia. lia.
  - apply List.Forall_forall. intros b Hb.
    apply in_map_iff in Hb as (j & <- & Hj). apply in_seq in Hj.
    cbn [snd]. rewrite List.length_firstn, List.length_skipn. fold n. lia.
Qed.

End UrlBatchFacts.

(* --------------------------------------------------------------------- *)
(** ** Restarting                                                         *)
(* --------------------------------------------------------------------- *)

Section RestartFacts.

Import Avito.

Lemma init_fs (base cat : pystr) (w : nat) (files : gmap pystr pystr) :
  fs (init base cat w files)
  = match files !! (cat ++ lit "_products_from_avito.csv") with
    | Some _ => files
    | None => <[cat ++ lit "_products_from_avito.csv" := csv_header false]> files
    end.
Proof.
  unfold init.
  match goal with |- context [load_progress ?st0] => set (st := load_progress st0) end.
  assert (E : fs st = files).
  { subst st. unfold load_progress. cbn [fs self progress_file].
    destruct (files !! _); reflexivity. }
  rewrite E.
  destruct (files !! (cat ++ lit "_products_from_avito.csv")); [exact E|].
  reflexivity.
Qed.

(** X22. Constructing the scraper again on the files a construction left
    changes no file and loads the same ledger: the header of the record
    file is written once. *)
Theorem init_again_changes_nothing
    (base cat : pystr) (w w' : nat) (files : gmap pystr pystr) :
  let st := init base cat w files in
  fs (init base cat w' (fs st)) = fs st
  /\ processed_urls (self (init base cat w' (fs st))) = processed_urls (self st).
Proof.
  intros st. subst st. split.
  - rewrite (init_fs base cat w' _), init_record_file.
    destruct (files !! (cat ++ lit "_products_from_avito.csv")); reflexivity.
  - rewrite !init_processed_urls, init_fs_progress. reflexivity.
Qed.

End RestartFacts.

(* --------------------------------------------------------------------- *)
(** ** The Jumia scraper                                                  *)
(* --------------------------------------------------------------------- *)

Section JumiaFacts.

Import Html.

(** X23. [write_header_if_needed] can be repeated: a second call changes
    nothing, the file is not empty afterwards, and no other file is
    touched. *)
Theorem write_header_if_needed_idempotent
    (path : pystr) (files : gmap pystr pystr) :
  Jumia.write_header_if_needed path (Jumia.write_header_if_needed path files)
  = Jumia.write_header_if_needed path files
  /\ (exists c rest,
        Jumia.write_header_if_needed path files !! path = Some (c :: rest))
  /\ (forall other, other <> path ->
        Jumia.write_header_if_needed path files !! other = files !! other).
Proof.
  assert (Hhead : forall f : gmap pystr pystr,
            Jumia.write_header_if_needed path
              (Avito.write_file path (Avito.csv_header true) f)
            = Avito.write_file path (Avito.csv_header true) f).
  { intros f. unfold Jumia.write_header_if_needed at 1. unfold Avito.write_file at 1.
    rewrite lookup_insert_eq. reflexivity. }
  unfold Jumia.write_header_if_needed at 2 3 4 5.
  destruct (files !! path) as [content|] eqn:E.
  - rewrite readline_truthy. destruct content as [|c rest]; cbn [truthy].
    + split; [apply Hhead|]. split.
      * unfold Avito.write_file. rewrite lookup_insert_eq.
        vm_compute. eauto.
      * intros other Hne. unfold Avito.write_file. apply lookup_insert_ne. auto.
    + split; [|split; [eauto | reflexivity]].
      unfold Jumia.write_header_if_needed. unfold pystr in *. rewrite E.
      rewrite readline_truthy. reflexivity.
  - split; [apply Hhead|]. split.
    + unfold Avito.write_file. rewrite lookup_insert_eq. vm_compute. eauto.
    + intros other Hne. unfold Avito.write_file. apply lookup_insert_ne. auto.
Qed.

Lemma replace_char_removes (c d : N) (s : pystr) :
  c <> d -> ~ In c (replace_char c d s).
Proof.
  intros Hne. unfold replace_char. rewrite in_map_iff. intros (x & Hx & _).
  destruct (N.eqb_spec x c); congruence.
Qed.

Lemma replace_char_keeps_out (x c d : N) (s : pystr) :
  x <> d -> ~ In x s -> ~ In x (replace_char c d s).
Proof.
  intros Hne Hout. unfold replace_char. rewrite in_map_iff. intros (y & Hy & Hin).
  destruct (N.eqb_spec y c); [congruence | subst; contradiction].
Qed.

Lemma unbreak_no_line_break (s : pystr) :
  ~ In LF (Jumia.unbreak s) /\ ~ In CR (Jumia.unbreak s).
Proof.
  unfold Jumia.unbreak. split.
  - apply replace_char_keeps_out; [discriminate|].
    apply replace_char_removes. discriminate.
  - apply replace_char_removes. discriminate.
Qed.

(** X24. In a Jumia record the title and the price hold no line feed and
    no carriage return; the description holds neither of them nor a tab
    and is at most 503 characters long, 500 of the text and the three
    dots of the cut. *)
Theorem jumia_record_fits_one_line (doc : soup) (link post_date scraped_at : pystr) :
  let q := Jumia.product_data doc link post_date scraped_at in
  (~ In LF (Avito.Title q) /\ ~ In CR (Avito.Title q))
  /\ (~ In LF (Avito.Price q) /\ ~ In CR (Avito.Price q))
  /\ (~ In LF (Avito.Description q) /\ ~ In CR (Avito.Description q)
      /\ ~ In 9%N (Avito.Description q))
  /\ length (Avito.Description q) <= 503.
Proof.
  intros q. subst q. cbn [Jumia.product_data Avito.Title Avito.Price Avito.Description].
  split; [apply unbreak_no_line_break|]. split; [apply unbreak_no_line_break|].
  unfold Jumia.extract_description.
  destruct (find doc (lit "div") (Some (lit "markup -pam"))) as [div|].
  - set (d2 := join (lit " ") (Jumia.split_ws (get_text_sep_strip (lit " ") div))).
    set (d3 := replace_char 9%N 32%N (Jumia.unbreak d2)).
    assert (H3 : ~ In LF d3 /\ ~ In CR d3 /\ ~ In 9%N d3).
    { subst d3. destruct (unbreak_no_line_break d2) as [Hlf Hcr].
      split; [|split].
      - apply replace_char_keeps_out; [discriminate | exact Hlf].
      - apply replace_char_keeps_out; [discriminate | exact Hcr].
      - apply replace_char_removes. discriminate. }
    destruct (Nat.ltb_spec 500 (length d3)) as [Hlong|Hshort].
    + assert (Hdots : forall x, x <> 46%N ->
                        ~ In x d3 -> ~ In x (firstn 500 d3 ++ lit "...")).
      { intros x Hx Hout Hin. apply in_app_or in Hin as [Hin|Hin].
        - apply Hout. rewrite <- (firstn_skipn 500 d3). apply in_or_app. auto.
        - vm_compute in Hin. repeat (destruct Hin as [Hin|Hin]; try congruence). }
      destruct H3 as (Hlf & Hcr & Htab).
      split; [repeat split; apply Hdots; auto; discriminate|].
      rewrite length_app, List.length_firstn. change (length (lit "...")) with 3. lia.
    + split; [tauto | lia].
  - vm_compute. repeat split; try lia;
      intros H; repeat (destruct H as [H|H]; try discriminate H); exact H.
Qed.

End JumiaFacts.

Section JumiaCatalog.

Variable listing : nat -> list (list pystr).

Lemma collect_pages_from (k : nat) :
  forall (fuel page : nat) (acc : list pystr),
    page <= k -> k - page < fuel ->
    (forall p, page <= p < k -> listing p <> []) ->
    listing k = [] ->
    Jumia.collect_pages listing fuel page acc
    = Some (acc ++ flat_map (fun p => Jumia.page_links (listing p))
                            (seq page (k - page))).
Proof.
  induction fuel as [|fuel IH]; intros page acc Hle Hfuel Hfull Hstop; [lia|].
  cbn [Jumia.collect_pages].
  destruct (Nat.eq_dec page k) as [->|Hne].
  - rewrite Hstop, Nat.sub_diag. cbn. rewrite app_nil_r. reflexivity.
  - destruct (listing page) as [|item items] eqn:Epage.
    + exfalso. apply (Hfull page); [lia | exact Epage].
    + rewrite IH; try lia; [|intros p Hp; apply Hfull; lia | exact Hstop].
      replace (k - page) with (S (k - S page)) by lia.
      cbn [seq flat_map]. rewrite Epage, List.app_assoc. reflexivity.
Qed.

Lemma collect_pages_running (fuel : nat) :
  forall (page : nat) (acc : list pystr),
    (forall p, page <= p < page + fuel -> listing p <> []) ->
    Jumia.collect_pages listing fuel page acc = None.
Proof.
  induction fuel as [|fuel IH]; intros page acc Hfull; [reflexivity|].
  cbn [Jumia.collect_pages].
  destruct (listing page) as [|item items] eqn:Epage.
  - exfalso. apply (Hfull page); [lia | exact Epage].
  - apply IH. intros p Hp. apply Hfull. lia.
Qed.

(** X25. The link collection of [scrape_category] ends at the first
    page without product articles, page [k], after [k] requests: it
    returns the links of pages 1 to [k - 1] in page order, each made of
    the base URL followed by the [href]. As long as every page shows an
    article it goes on to the next page. *)
Theorem jumia_collection_stops_at_first_empty_page (k fuel : nat) :
  1 <= k -> k <= fuel ->
  (forall p, 1 <= p < k -> listing p <> []) ->
  listing k = [] ->
  Jumia.collect_pages listing fuel 1 []
  = Some (flat_map (fun p => Jumia.page_links (listing p)) (seq 1 (k - 1)))
  /\ Forall (fun u => startswith u Jumia.baseurl = true)
            (flat_map (fun p => Jumia.page_links (listing p)) (seq 1 (k - 1)))
  /\ (forall n, n < k -> Jumia.collect_pages listing n 1 [] = None).
Proof.
  intros Hk Hfuel Hfull Hstop. split; [|split].
  - rewrite (collect_pages_from k fuel 1 []); auto; lia.
  - apply List.Forall_forall. intros u Hu.
    apply in_flat_map in Hu as (p & _ & Hu). unfold Jumia.page_links in Hu.
    apply in_flat_map in Hu as (item & _ & Hu).
    apply in_map_iff in Hu as (href & <- & _).
    apply startswith_prefix. eauto.
  - intros n Hn. apply collect_pages_running. intros p Hp. apply Hfull. lia.
Qed.

End JumiaCatalog.

Lemma jumia_collection_stops_at_first_empty_page_witness :
  let listing := fun p => if p <? 3 then [[lit "a.html"; lit "b.html"]] else [] in
  Jumia.collect_pages listing 5 1 []
  = Some [lit "https://www.jumia.ma/a.html"; lit "https://www.jumia.ma/b.html";
          lit "https://www.jumia.ma/a.html"; lit "https://www.jumia.ma/b.html"]
  /\ Jumia.collect_pages listing 2 1 [] = None.
Proof.
  intros listing.
  destruct (jumia_collection_stops_at_first_empty_page listing 3 5)
    as (H1 & _ & H3); [lia | lia | | reflexivity |].
  - intros p Hp. assert (Hp' : p = 1 \/ p = 2) by lia.
    destruct Hp' as [->| ->]; discriminate.
  - split; [exact H1 | apply H3; lia].
Defined.

(* --------------------------------------------------------------------- *)
(** ** The link file when processing starts                               *)
(* --------------------------------------------------------------------- *)

Section ProgressFacts.

Import Avito.

Variable net : list event -> Sessions.session -> pystr -> outcome.

Lemma lines_aux_nonempty (s cur : pystr) :
  s <> [] \/ cur <> [] -> lines_aux cur s <> [].
Proof.
  revert cur. induction s as [|c s IH]; intros cur H; cbn [lines_aux].
  - destruct H as [H|H]; [contradiction|]. destruct cur; [contradiction | discriminate].
  - destruct (c =? LF)%N; [discriminate|].
    apply IH. right. destruct cur; discriminate.
Qed.

Lemma file_lines_nonempty (content : pystr) :
  content <> [] -> file_lines content <> [].
Proof.
  intros H. unfold file_lines. apply lines_aux_nonempty. left.
  destruct content as [|c rest]; [contradiction|]. cbn [universal_newlines].
  destruct (c =? CR)%N; [|discriminate].
  destruct rest as [|d rest]; [discriminate|].
  destruct (d =? LF)%N; discriminate.
Qed.

(** X26. When [scrape_optimized] goes on to process links, the list of
    pending links is not empty and the link file exists with at least one
    line, so the number of lines by which the progress is divided is not
    zero. *)
Theorem discover_link_file_has_lines
    (fuel : nat) (st st' : state) (all_links : list pystr) :
  discover net fuel st = Done (ToProcess all_links) st' ->
  all_links <> []
  /\ exists content,
       fs st' !! link_file (self st') = Some content
       /\ 1 <= length (file_lines content).
Proof.
  unfold discover. intros Hrun.
  destruct (fs st !! link_file (self st)) as [content|] eqn:Efile.
  - set (pending := List.filter _ _) in Hrun.
    destruct pending as [|l pending'] eqn:Ep; [discriminate Hrun|].
    injection Hrun as <- <-. split; [discriminate|].
    exists content. split; [exact Efile|].
    destruct (file_lines content); [discriminate Ep | simpl; lia].
  - unfold collect_links_optimized in Hrun.
    destruct (collect_loop net fuel 1 0 [] st) as [links st1| |] eqn:Hloop;
      cbn [bind] in Hrun; try discriminate Hrun.
    destruct links as [|l links]; [discriminate Hrun|].
    injection Hrun as <- <-. split; [discriminate|].
    cbn [self fs set_fs]. unfold write_file. rewrite lookup_insert_eq.
    eexists. split; [reflexivity|].
    match goal with |- 1 <= length (file_lines ?c) =>
      pose proof (file_lines_nonempty c) as Hne end.
    destruct (file_lines _); [|simpl; lia].
    exfalso. apply Hne; [|reflexivity].
    cbn [List.map List.concat]. destruct l; discriminate.
Qed.

End ProgressFacts.

Lemma discover_link_file_has_lines_witness :
  let run := Avito.discover Samples.net_category 10 Samples.fresh in
  let st' := Avito.state_after Samples.fresh run in
  exists content,
    Avito.fs st' !! Avito.link_file (Avito.self st') = Some content
    /\ 1 <= length (file_lines content).
Proof.
  intros run st'.
  destruct (discover_link_file_has_lines Samples.net_category 10 Samples.fresh st'
              (default [] (Samples.value
                 (Avito.collect_links_optimized Samples.net_category 10 Samples.fresh))))
    as [_ H]; [reflexivity | exact H].
Defined.
